(** * MintraTrade order engine: the order model and its checks

    A shallow embedding of [server/models/Order.js] (the Mongoose order
    schema with the validation it declares, its two [pre('save')] hooks,
    its instance methods, the sales-analytics aggregation and the
    date-range query), of the cancellation, return and replacement
    reducers and the selectors of
    [client/src/store/slices/orderSlice.js], and of the order inquiry of
    the chatbot service, followed by the properties the specification
    states about them and further properties read off the code.

    Conventions of the embedding:
    - the arithmetic of a JavaScript [Number] is a parameter of the
      model ([Number]); its instance [Binary64] is IEEE 754 double
      precision, the arithmetic of the code, and its instance [Exact]
      the rationals; a statement made for every instance holds of the
      code, and every concrete run below is one on doubles;
    - a [Date] is its epoch time in milliseconds ([Z]) together with the
      local calendar fields the code reads from it;
    - a [String] field is a [string]; an unset field is [None];
    - the collection is a list of stored documents, oldest first;
    - [save] is validation, then the hooks; the write itself is the
      database's and stays outside the model;
    - the stages of the aggregation pipeline are list operations, and
      [$multiply], [$divide] and [$sum] the operations of [Number],
      [$sum] adding the rows in pipeline order from zero;
    - the parts of the schema the records leave out (addresses, payment,
      notes, tracking) are taken to be present and valid. *)

From Stdlib Require Import ZArith NArith QArith Floats List String Ascii Lia Bool.
From Equations Require Import Equations.
Import ListNotations.

Open Scope string_scope.

#[local] Set Warnings "-inexact-float".

(** ** The JavaScript string helpers the model calls *)

Module JS.

(** The character of a decimal digit. *)
Definition digit (d : N) : ascii := ascii_of_N (48 + d).

Definition one_digit (n : N) : {(n < 10)%N} + {(10 <= n)%N}.
Proof.
  destruct (n <? 10)%N eqn:E; [left; apply N.ltb_lt | right; apply N.ltb_ge];
    exact E.
Defined.

(** [Number.prototype.toString()] on a non-negative integer. *)
Equations? toString (n : N) : string by wf (N.to_nat n) lt :=
  toString n with one_digit n => {
    | left _ := String (digit n) EmptyString;
    | right Hge := toString (n / 10) ++ String (digit (n mod 10)) EmptyString }.
Proof.
  assert (n / 10 < n)%N by (apply N.div_lt; lia). lia.
Qed.

(** [c.repeat(k)] for a one-character string. *)
Fixpoint repeat_char (c : ascii) (k : nat) : string :=
  match k with
  | O => EmptyString
  | S k' => String c (repeat_char c k')
  end.

(** [s.padStart(len, c)] with a one-character filler: the string is
    returned as it is when it already has [len] characters or more. *)
Definition padStart (len : nat) (c : ascii) (s : string) : string :=
  repeat_char c (len - String.length s) ++ s.

(** Drop the first [k] characters. *)
Fixpoint drop (k : nat) (s : string) : string :=
  match k, s with
  | O, _ => s
  | S _, EmptyString => EmptyString
  | S k', String _ s' => drop k' s'
  end.

(** [s.slice(-k)]: the last [k] characters, the whole string when it is
    shorter. *)
Definition slice_last (k : nat) (s : string) : string :=
  drop (String.length s - k) s.

(** [arr.includes(x)] on an array of strings. *)
Definition includes (arr : list string) (x : string) : bool :=
  existsb (String.eqb x) arr.

(** Reading a string of decimal digits back, most significant first. *)
Fixpoint parse_from (acc : N) (s : string) : N :=
  match s with
  | EmptyString => acc
  | String c s' => parse_from (10 * acc + (N_of_ascii c - 48)) s'
  end.

Definition parseInt (s : string) : N := parse_from 0 s.

End JS.

(** ** The arithmetic of [Number] *)

Module Numbers.

(** The operations the code applies to numbers: the literals [0], [1]
    and [100], the four operators and the two comparisons. *)
Class Number (num : Type) := mkNumber {
  zero : num;
  one : num;
  hundred : num;
  add : num -> num -> num;
  sub : num -> num -> num;
  mul : num -> num -> num;
  div : num -> num -> num;
  leb : num -> num -> bool;
  ltb : num -> num -> bool
}.

(** IEEE 754 binary64, as JavaScript computes. *)
#[export] Instance Binary64 : Number float := {|
  zero := 0%float;
  one := 1%float;
  hundred := 100%float;
  add := PrimFloat.add;
  sub := PrimFloat.sub;
  mul := PrimFloat.mul;
  div := PrimFloat.div;
  leb := PrimFloat.leb;
  ltb := PrimFloat.ltb
|}.

(** Exact rational arithmetic. *)
#[export] Instance Exact : Number Q := {|
  zero := 0%Q;
  one := 1%Q;
  hundred := 100%Q;
  add := Qplus;
  sub := Qminus;
  mul := Qmult;
  div := Qdiv;
  leb := Qle_bool;
  ltb := fun a b => negb (Qle_bool b a)
|}.

End Numbers.

Export Numbers.

(** ** server/models/Order.js *)

Module OrderModel.

Section WithNumber.

Context {num : Type} {NUM : Number num}.

(** [orderItemSchema], without the tracking sub-document. *)
Record OrderItem := mkItem {
  product : N;
  seller : N;
  quantity : num;
  price : num;
  commission : num;
  item_status : string
}.

(** [orderSchema]: identification, items, pricing, status and dates;
    [createdAt] is the field [timestamps: true] adds. *)
Record Order := mkOrder {
  orderNumber : option string;
  customer : N;
  items : list OrderItem;
  subtotal : num;
  tax : num;
  shipping : num;
  discount : num;
  total : num;
  status : string;
  orderDate : Z;
  confirmedAt : option Z;
  shippedAt : option Z;
  deliveredAt : option Z;
  createdAt : option Z
}.

(** A [Date] object: epoch milliseconds and the local calendar fields
    ([getMonth] counts from 0, [getDate] is the day of the month). *)
Record JSDate := mkDate {
  getTime : Z;
  getFullYear : N;
  getMonth : N;
  getDate : N
}.

(** What the runtime gives a call: [new Date()] and the epoch time of
    [new Date(year, month, day)], local midnight. *)
Record Runtime := mkRuntime {
  newDate : JSDate;
  localMidnight : N -> N -> N -> Z
}.

Definition now (rt : Runtime) : Z := getTime (newDate rt).

Definition set_orderNumber (v : option string) (o : Order) : Order :=
  mkOrder v (customer o) (items o) (subtotal o) (tax o) (shipping o)
    (discount o) (total o) (status o) (orderDate o) (confirmedAt o)
    (shippedAt o) (deliveredAt o) (createdAt o).

Definition set_totals (sub tot : num) (o : Order) : Order :=
  mkOrder (orderNumber o) (customer o) (items o) sub (tax o) (shipping o)
    (discount o) tot (status o) (orderDate o) (confirmedAt o)
    (shippedAt o) (deliveredAt o) (createdAt o).

Definition set_status (v : string) (o : Order) : Order :=
  mkOrder (orderNumber o) (customer o) (items o) (subtotal o) (tax o)
    (shipping o) (discount o) (total o) v (orderDate o) (confirmedAt o)
    (shippedAt o) (deliveredAt o) (createdAt o).

Definition set_confirmedAt (v : option Z) (o : Order) : Order :=
  mkOrder (orderNumber o) (customer o) (items o) (subtotal o) (tax o)
    (shipping o) (discount o) (total o) (status o) (orderDate o) v
    (shippedAt o) (deliveredAt o) (createdAt o).

Definition set_shippedAt (v : option Z) (o : Order) : Order :=
  mkOrder (orderNumber o) (customer o) (items o) (subtotal o) (tax o)
    (shipping o) (discount o) (total o) (status o) (orderDate o)
    (confirmedAt o) v (deliveredAt o) (createdAt o).

Definition set_deliveredAt (v : option Z) (o : Order) : Order :=
  mkOrder (orderNumber o) (customer o) (items o) (subtotal o) (tax o)
    (shipping o) (discount o) (total o) (status o) (orderDate o)
    (confirmedAt o) (shippedAt o) v (createdAt o).


(** [!this.orderNumber]: unset or the empty string. *)
Definition no_orderNumber (o : Order) : bool :=
  match orderNumber o with
  | None => true
  | Some s => String.eqb s ""
  end.

(** [countDocuments({createdAt: {$gte: from, $lt: to}})]. *)
Definition created_within (from to : Z) (d : Order) : bool :=
  match createdAt d with
  | Some c => (from <=? c)%Z && (c <? to)%Z
  | None => false
  end.

Definition countDocuments (db : list Order) (from to : Z) : N :=
  N.of_nat (List.length (filter (created_within from to) db)).

(** The three date fields of the order number. *)
Definition year2 (date : JSDate) : string :=
  JS.slice_last 2 (JS.toString (getFullYear date)).

Definition month2 (date : JSDate) : string :=
  JS.padStart 2 "0" (JS.toString (getMonth date + 1)).

Definition day2 (date : JSDate) : string :=
  JS.padStart 2 "0" (JS.toString (getDate date)).

Definition sequence4 (count : N) : string :=
  JS.padStart 4 "0" (JS.toString (count + 1)).

(** The template literal of the first hook. *)
Definition formatOrderNumber (date : JSDate) (count : N) : string :=
  "MT" ++ year2 date ++ month2 date ++ day2 date ++ sequence4 count.

(** The count the first hook awaits: the documents created in the local
    day of [date]. *)
Definition countToday (rt : Runtime) (db : list Order) (date : JSDate) : N :=
  countDocuments db
    (localMidnight rt (getFullYear date) (getMonth date) (getDate date))
    (localMidnight rt (getFullYear date) (getMonth date) (getDate date + 1)).

(** First [pre('save')] hook: generate the order number when there is
    none. *)
Definition preSaveOrderNumber (rt : Runtime) (db : list Order) (o : Order)
  : Order :=
  if no_orderNumber o then
    let date := newDate rt in
    let count := countToday rt db date in
    set_orderNumber (Some (formatOrderNumber date count)) o
  else o.

(** Second [pre('save')] hook: recompute the totals. *)
Definition preSaveTotals (o : Order) : Order :=
  let subtotal' :=
    fold_left (fun sum item => add sum (mul (price item) (quantity item)))
      (items o) zero
  in
  set_totals subtotal'
    (sub (add (add subtotal' (tax o)) (shipping o)) (discount o)) o.

(** The two hooks, in the order they are registered. *)
Definition preSave (rt : Runtime) (db : list Order) (o : Order) : Order :=
  preSaveTotals (preSaveOrderNumber rt db o).

(** The validators the schema declares on the fields of the record:
    [orderNumber] is required (an empty string counts as missing), the
    two [status] fields are enumerations and [quantity] has [min: 1].
    The other required fields are always present in the record. *)
Definition statusEnum : list string :=
  ["pending"; "confirmed"; "processing"; "shipped"; "delivered";
   "cancelled"; "returned"].

Inductive Path :=
| orderNumberPath
| statusPath
| itemQuantityPath (index : nat)
| itemStatusPath (index : nat).

Definition invalidItemPaths (index : nat) (it : OrderItem) : list Path :=
  ((if leb one (quantity it) then [] else [itemQuantityPath index])
   ++ (if JS.includes statusEnum (item_status it) then []
       else [itemStatusPath index]))%list.

Fixpoint invalidItems (index : nat) (its : list OrderItem) : list Path :=
  match its with
  | [] => []
  | it :: rest =>
    (invalidItemPaths index it ++ invalidItems (S index) rest)%list
  end.

(** The paths a [ValidationError] would name; none when the document
    passes. *)
Definition invalidPaths (o : Order) : list Path :=
  ((if no_orderNumber o then [orderNumberPath] else [])
   ++ (if JS.includes statusEnum (status o) then [] else [statusPath])
   ++ invalidItems 0 (items o))%list.

(** What a call of [save()] comes to: the document is handed to the
    database after the hooks, or the call is rejected with a
    [ValidationError] before any hook has run and the document is as it
    was. *)
Inductive SaveResult :=
| Submitted (doc : Order)
| ValidationError (doc : Order) (paths : list Path).

Definition document (r : SaveResult) : Order :=
  match r with
  | Submitted doc => doc
  | ValidationError doc _ => doc
  end.

(** [save(options)]: Mongoose validates before the [pre('save')] hooks
    unless [validateBeforeSave] is switched off. *)
Definition save (validateBeforeSave : bool) (rt : Runtime) (db : list Order)
  (o : Order) : SaveResult :=
  if validateBeforeSave then
    match invalidPaths o with
    | [] => Submitted (preSave rt db o)
    | paths => ValidationError o paths
    end
  else Submitted (preSave rt db o).

(** [canBeCancelled]. *)
Definition canBeCancelled (o : Order) : bool :=
  JS.includes ["pending"; "confirmed"] (status o).

(** [canBeReturned]. *)
Definition daysSinceDelivery (rt : Runtime) (o : Order) : Q :=
  match deliveredAt o with
  | Some d => inject_Z (now rt - d) / inject_Z (1000 * 60 * 60 * 24)
  | None => 0
  end.

Definition canBeReturned (rt : Runtime) (o : Order) : bool :=
  String.eqb (status o) "delivered" && Qle_bool (daysSinceDelivery rt o) 30.

(** [updateStatus]: the assignment and the [switch], then
    [this.save()] with the default options. *)
Definition stampStatus (rt : Runtime) (newStatus : string) (o : Order)
  : Order :=
  let o1 := set_status newStatus o in
  if String.eqb newStatus "confirmed" then set_confirmedAt (Some (now rt)) o1
  else if String.eqb newStatus "shipped" then set_shippedAt (Some (now rt)) o1
  else if String.eqb newStatus "delivered"
       then set_deliveredAt (Some (now rt)) o1
  else o1.

Definition updateStatus (rt : Runtime) (db : list Order) (newStatus : string)
  (o : Order) : SaveResult :=
  save true rt db (stampStatus rt newStatus o).

(** [getOrdersByDateRange]: [orderDate] between the two bounds, both
    included. The [populate] calls replace references by documents of
    other collections and are outside the model. *)
Definition inDateRange (startDate endDate : Z) (o : Order) : bool :=
  (startDate <=? orderDate o)%Z && (orderDate o <=? endDate)%Z.

Definition getOrdersByDateRange (db : list Order) (startDate endDate : Z)
  : list Order :=
  filter (inDateRange startDate endDate) db.

(** [getSalesAnalytics]: the aggregation pipeline, stage by stage. *)
Record Analytics := mkAnalytics {
  totalOrders : N;
  totalRevenue : num;
  totalCommission : num
}.

Definition sells (sellerId : N) (it : OrderItem) : bool :=
  N.eqb (seller it) sellerId.

Definition matchOrder (sellerId : N) (startDate endDate : Z) (o : Order)
  : bool :=
  existsb (sells sellerId) (items o)
  && ((startDate <=? orderDate o)%Z && (orderDate o <=? endDate)%Z)
  && negb (JS.includes ["cancelled"; "returned"] (status o)).

Definition unwindItems (docs : list Order) : list (Order * OrderItem) :=
  flat_map (fun o => map (fun it => (o, it)) (items o)) docs.

Definition groupAll (rows : list (Order * OrderItem)) : list Analytics :=
  match rows with
  | [] => []
  | _ =>
    [ mkAnalytics
        (fold_left (fun acc _ => (acc + 1)%N) rows 0%N)
        (fold_left
           (fun acc r => add acc (mul (price (snd r)) (quantity (snd r))))
           rows zero)
        (fold_left
           (fun acc r =>
              add acc
                (mul (mul (price (snd r)) (quantity (snd r)))
                   (div (commission (snd r)) hundred)))
           rows zero) ]
  end.

(** The first three stages: [$match], [$unwind], [$match]. *)
Definition salesRows (db : list Order) (sellerId : N)
  (startDate endDate : Z) : list (Order * OrderItem) :=
  filter (fun r => sells sellerId (snd r))
    (unwindItems (filter (matchOrder sellerId startDate endDate) db)).

Definition getSalesAnalytics (db : list Order) (sellerId : N)
  (startDate endDate : Z) : list Analytics :=
  groupAll (salesRows db sellerId startDate endDate).

End WithNumber.

Arguments OrderItem : clear implicits.
Arguments Order : clear implicits.
Arguments Analytics : clear implicits.
Arguments SaveResult : clear implicits.

End OrderModel.

(** ** client/src/store/slices/orderSlice.js *)

Module OrderSlice.

(** One entry of [order.returns] as the reducer builds it; dates are
    kept as epoch milliseconds. *)
Record ReturnRequest := mkReturn {
  return_id : string;
  return_items : list N;
  return_reason : string;
  return_status : string;
  requestedAt : Z
}.

Record Cancellation := mkCancellation {
  cancel_reason : string;
  cancelledAt : Z
}.

(** An order as the store holds it ([returns] may be missing). *)
Record ClientOrder := mkClientOrder {
  id : string;
  status : string;
  cancellation : option Cancellation;
  returns : option (list ReturnRequest)
}.

Record State := mkState {
  orders : list ClientOrder;
  currentOrder : option ClientOrder
}.

(** Apply [f] to the element [orders.find(order => order.id === orderId)]
    returns, the first match, in place. *)
Fixpoint updateFirst (orderId : string) (f : ClientOrder -> ClientOrder)
  (l : list ClientOrder) : list ClientOrder :=
  match l with
  | [] => []
  | o :: rest =>
    if String.eqb (id o) orderId then f o :: rest
    else o :: updateFirst orderId f rest
  end.

(** Apply [f] to [state.currentOrder] when [currentOrder?.id === orderId]. *)
Definition updateCurrent (orderId : string) (f : ClientOrder -> ClientOrder)
  (c : option ClientOrder) : option ClientOrder :=
  match c with
  | Some o => if String.eqb (id o) orderId then Some (f o) else Some o
  | None => None
  end.

Definition markCancelled (reason : string) (t : Z) (o : ClientOrder)
  : ClientOrder :=
  mkClientOrder (id o) "cancelled" (Some (mkCancellation reason t))
    (returns o).

(** The [cancelOrder] reducer. The clock is read once for the entry of
    the list ([listTime]) and once more for the current order
    ([currentTime]). *)
Definition cancelOrder (listTime currentTime : Z) (s : State)
  (orderId reason : string) : State :=
  mkState (updateFirst orderId (markCancelled reason listTime) (orders s))
          (updateCurrent orderId (markCancelled reason currentTime)
             (currentOrder s)).

Definition pushReturn (r : ReturnRequest) (o : ClientOrder) : ClientOrder :=
  mkClientOrder (id o) (status o) (cancellation o)
    (Some (match returns o with
           | Some rs => (rs ++ [r])%list
           | None => [r]
           end)).

(** The four clock readings of [requestReturn]: [Date.now()] and
    [new Date()] for the entry of the list, then again for the current
    order. *)
Record ReturnClock := mkReturnClock {
  listNow : N;
  listDate : Z;
  currentNow : N;
  currentDate : Z
}.

Definition newReturn (nowMs : N) (date : Z) (its : list N) (reason : string)
  : ReturnRequest :=
  mkReturn ("return_" ++ JS.toString nowMs) its reason "requested" date.

(** The [requestReturn] reducer. *)
Definition requestReturn (clock : ReturnClock) (s : State) (orderId : string)
  (its : list N) (reason : string) : State :=
  mkState
    (updateFirst orderId
       (pushReturn (newReturn (listNow clock) (listDate clock) its reason))
       (orders s))
    (updateCurrent orderId
       (pushReturn
          (newReturn (currentNow clock) (currentDate clock) its reason))
       (currentOrder s)).

(** The [updateOrder] reducer: the first order with the payload's id is
    replaced, and so is the current order when it has that id. *)
Definition updateOrder (s : State) (updatedOrder : ClientOrder) : State :=
  mkState
    (updateFirst (id updatedOrder) (fun _ => updatedOrder) (orders s))
    (updateCurrent (id updatedOrder) (fun _ => updatedOrder)
       (currentOrder s)).

Definition selectOrderById (s : State) (orderId : string)
  : option ClientOrder :=
  find (fun o => String.eqb (id o) orderId) (orders s).

Definition selectOrdersByStatus (s : State) (st : string)
  : list ClientOrder :=
  filter (fun o => String.eqb (status o) st) (orders s).

Definition selectPendingOrders (s : State) : list ClientOrder :=
  filter (fun o => JS.includes ["pending"; "confirmed"; "processing"]
                     (status o))
    (orders s).

Definition selectCompletedOrders (s : State) : list ClientOrder :=
  filter (fun o => String.eqb (status o) "delivered") (orders s).

Definition selectCancelledOrders (s : State) : list ClientOrder :=
  filter (fun o => String.eqb (status o) "cancelled") (orders s).

(** [order.returns && order.returns.length > 0]. *)
Definition hasReturns (o : ClientOrder) : bool :=
  match returns o with
  | Some (_ :: _) => true
  | _ => false
  end.

Definition selectOrdersWithReturns (s : State) : list ClientOrder :=
  filter hasReturns (orders s).

End OrderSlice.

(** ** The chatbot service: order inquiries and seller statistics *)

Module Chatbot.

Import OrderModel.

Section WithNumber.

Context {num : Type} {NUM : Number num}.

(** The part of the user document the handlers read. *)
Record User := mkUser { user_id : N }.

(** The part of a product document the reply reads after
    [populate('items.product', 'name images')]. *)
Record Product := mkProduct {
  product_id : N;
  product_name : string
}.

(** [populate]: the referenced document, or [null] when the collection
    has none with that id. *)
Definition populate (products : list Product) (ref : N) : option Product :=
  find (fun p => N.eqb (product_id p) ref) products.

(** One line of the reply's order summary (the tracking sub-document is
    outside the order model). *)
Record ItemSummary := mkItemSummary {
  summary_name : string;
  summary_quantity : num;
  summary_price : num;
  summary_status : string
}.

Record OrderSummary := mkSummary {
  summary_orderNumber : option string;
  summary_order_status : string;
  summary_total : num;
  summary_orderDate : Z;
  summary_items : list ItemSummary
}.

Record Reply := mkReply {
  message : string;
  reply_type : string;
  reply_order : option OrderSummary
}.

(** The handler returns a reply or throws a [TypeError]. *)
Inductive Outcome :=
| Returned (reply : Reply)
| TypeError.

(** A string in a condition: [null], [undefined] and the empty string
    are falsy. *)
Definition truthy (s : option string) : bool :=
  match s with
  | None => false
  | Some s' => negb (String.eqb s' "")
  end.

(** The filter [{orderNumber, customer: user._id}]. *)
Definition sameNumber (number : option string) (o : Order num) : bool :=
  match number, orderNumber o with
  | Some a, Some b => String.eqb a b
  | _, _ => false
  end.

Definition byNumberAndCustomer (number : option string) (uid : N)
  (o : Order num) : bool :=
  sameNumber number o && N.eqb (customer o) uid.

(** [a] sorts strictly before [b] under [sort({createdAt: -1})]; a
    missing date sorts after every date. *)
Definition newer (a b : Order num) : bool :=
  match createdAt a, createdAt b with
  | Some x, Some y => (y <? x)%Z
  | Some _, None => true
  | None, _ => false
  end.

(** The first document of the descending sort. *)
Definition latest (l : list (Order num)) : option (Order num) :=
  fold_left
    (fun best o =>
       match best with
       | None => Some o
       | Some b => if newer o b then Some o else Some b
       end)
    l None.

(** The query of [handleOrderInquiry]: by number when one is given, the
    customer's latest order otherwise. *)
Definition findOrder (db : list (Order num)) (number : option string)
  (uid : N) : option (Order num) :=
  if truthy number
  then find (byNumberAndCustomer number uid) db
  else latest (filter (fun o => N.eqb (customer o) uid) db).

(** The [statusMessages] table. *)
Definition statusMessages : list (string * string) :=
  [ ("pending", "Your order is being processed");
    ("confirmed", "Your order has been confirmed and will be shipped soon");
    ("processing", "Your order is being prepared for shipment");
    ("shipped", "Your order has been shipped and is on its way");
    ("delivered", "Your order has been delivered");
    ("cancelled", "Your order has been cancelled");
    ("returned", "Your order has been returned") ].

Fixpoint lookup (key : string) (table : list (string * string))
  : option string :=
  match table with
  | [] => None
  | (k, v) :: rest => if String.eqb k key then Some v else lookup key rest
  end.

(** A value inside a template literal; a missing one prints as
    [undefined]. *)
Definition interpolate (v : option string) : string :=
  match v with
  | Some s => s
  | None => "undefined"
  end.

(** [order.items.map(item => ({name: item.product.name, ...}))]: reading
    [name] of a product that [populate] left [null] throws, which is
    [None] here. *)
Fixpoint summarizeItems (products : list Product) (its : list (OrderItem num))
  : option (list ItemSummary) :=
  match its with
  | [] => Some []
  | it :: rest =>
    match populate products (product it) with
    | None => None
    | Some p =>
      match summarizeItems products rest with
      | None => None
      | Some rest' =>
        Some (mkItemSummary (product_name p) (quantity it) (price it)
                (item_status it) :: rest')
      end
    end
  end.

Definition summarize (products : list Product) (o : Order num)
  : option OrderSummary :=
  match summarizeItems products (items o) with
  | None => None
  | Some lines =>
    Some (mkSummary (orderNumber o) (status o) (total o) (orderDate o) lines)
  end.

Definition authRequired : Reply :=
  mkReply
    "Please log in to check your order status. I can help you track your orders once you're signed in."
    "auth_required" None.

Definition orderNotFound (number : option string) : Reply :=
  mkReply
    (if truthy number
     then "I couldn't find an order with number "
          ++ interpolate number
          ++ ". Please check the order number and try again."
     else "You don't have any orders yet. Would you like me to help you find some great products?")
    "order_not_found" None.

Definition orderStatus (order : Order num) (sm : OrderSummary) : Reply :=
  mkReply
    ("Order #" ++ interpolate (orderNumber order) ++ ": "
     ++ interpolate (lookup (status order) statusMessages))
    "order_status" (Some sm).

(** [handleOrderInquiry]. *)
Definition handleOrderInquiry (db : list (Order num))
  (products : list Product) (number : option string) (user : option User)
  : Outcome :=
  match user with
  | None => Returned authRequired
  | Some u =>
    match findOrder db number (user_id u) with
    | None => Returned (orderNotFound number)
    | Some order =>
      match summarize products order with
      | None => TypeError
      | Some sm => Returned (orderStatus order sm)
      end
    end
  end.

(** [Order.countDocuments({'items.seller': user._id})] of the seller
    statistics. *)
Definition countSellerOrders (db : list (Order num)) (sellerId : N) : N :=
  N.of_nat
    (List.length (filter (fun o => existsb (sells sellerId) (items o)) db)).

End WithNumber.

Arguments ItemSummary : clear implicits.
Arguments OrderSummary : clear implicits.
Arguments Reply : clear implicits.
Arguments Outcome : clear implicits.

End Chatbot.

(** ** What the specification words, as definitions of their own *)

Module Spec.

Import OrderModel.

(** The legal-transition table of the status engine. *)
Definition legal_transition (from to : string) : bool :=
  match from, to with
  | "pending", "confirmed" => true
  | "confirmed", "processing" => true
  | "processing", "shipped" => true
  | "shipped", "delivered" => true
  | "pending", "cancelled" => true
  | "confirmed", "cancelled" => true
  | "delivered", "returned" => true
  | _, _ => false
  end.

Section WithNumber.

Context {num : Type} {NUM : Number num}.

(** The sum of a list of amounts, added one after the other from zero
    in the order of the list. *)
Fixpoint sumFrom (acc : num) (l : list num) : num :=
  match l with
  | [] => acc
  | x :: rest => sumFrom (add acc x) rest
  end.

Definition sumInOrder (l : list num) : num := sumFrom zero l.

(** Sum over all items of price * quantity. *)
Definition lineTotal (it : OrderItem num) : num :=
  mul (price it) (quantity it).

Definition sumOfLines (its : list (OrderItem num)) : num :=
  sumInOrder (map lineTotal its).

(** An item's commission: price * quantity * (commissionPercent / 100). *)
Definition lineCommission (it : OrderItem num) : num :=
  mul (mul (price it) (quantity it)) (div (commission it) hundred).

Definition sumOfCommissions (its : list (OrderItem num)) : num :=
  sumInOrder (map lineCommission its).


(** Thirty days, in milliseconds. *)
Definition returnWindowMs : Z := 30 * 24 * 60 * 60 * 1000.

(** Eligible for a return: delivered, with a delivery date at most thirty
    days (as a duration) before now. *)
Definition returnEligible (rt : Runtime) (o : Order num) : Prop :=
  OrderModel.status o = "delivered" /\
  exists d, deliveredAt o = Some d /\ (now rt - d <= returnWindowMs)%Z.


End WithNumber.




(** The instant [t] lies in the local day of [rt]'s clock. *)
Definition withinToday (rt : Runtime) (t : Z) : Prop :=
  let date := newDate rt in
  (localMidnight rt (getFullYear date) (getMonth date) (getDate date) <= t
   < localMidnight rt (getFullYear date) (getMonth date) (getDate date + 1))%Z.

(** The current order of the client store is the order the list holds
    under its id. *)
Definition synced (s : OrderSlice.State) : Prop :=
  forall c, OrderSlice.currentOrder s = Some c ->
            OrderSlice.selectOrderById s (OrderSlice.id c) = Some c.

End Spec.

(** ** Concrete orders and clocks used by the examples below *)

Module Samples.

Import OrderModel.

(** A calendar good enough to place instants in days: every month is
    given 31 slots. *)
Definition dayMs : Z := 86400000.

Definition slotMidnight (y m d : N) : Z :=
  Z.of_N ((y * 12 + m) * 31 + d) * dayMs.

(** 2 November 2026, [ms] milliseconds after local midnight. *)
Definition nov2 (ms : Z) : Runtime :=
  mkRuntime (mkDate (slotMidnight 2026 10 2 + ms) 2026 10 2) slotMidnight.

(** The amounts of the samples are doubles. *)
Definition item (s : N) (p q : float) : OrderItem float :=
  mkItem 1 s q p 5%float "pending".

(** A new order, no number yet. *)
Definition draft (its : list (OrderItem float)) (tx sh disc : float)
  : Order float :=
  mkOrder None 7 its 0%float tx sh disc 0%float "pending" 0 None None None
    None.

(** An order that has its number and nothing computed yet. *)
Definition numbered (its : list (OrderItem float)) (tx sh disc : float)
  : Order float :=
  mkOrder (Some "MT2611010007") 7 its 0%float tx sh disc 0%float "pending" 0
    None None None (Some (slotMidnight 2026 10 1)).

(** Scenario A of the specification. *)
Definition scenarioA : Order float :=
  numbered [item 1 100%float 2%float; item 2 50%float 1%float]
    10%float 5%float 0%float.


(** Amounts that are not binary fractions. *)
Definition tenths : Order float :=
  numbered [item 1 0.1%float 3%float] 0%float 0%float 0%float.

(** The same three lines in two orders. *)
Definition ascending : Order float :=
  numbered [item 1 0.1%float 1%float; item 1 0.2%float 1%float;
            item 1 0.3%float 1%float] 0%float 0%float 0%float.

Definition descending : Order float :=
  numbered [item 1 0.3%float 1%float; item 1 0.2%float 1%float;
            item 1 0.1%float 1%float] 0%float 0%float 0%float.

(** A stored order numbered [number], in a given status with a given
    delivery date. *)
Definition storedAs (number : string) (st : string) (delivered : option Z)
  : Order float :=
  mkOrder (Some number) 7 [item 1 100%float 2%float] 200%float
    0%float 0%float 0%float 200%float st 0
    None None delivered (Some (slotMidnight 2026 10 2)).

(** The first order of 2 November 2026. *)
Definition stored (st : string) (delivered : option Z) : Order float :=
  storedAs "MT2611020001" st delivered.

(** An order delivered [days] days before [nov2 0]. *)
Definition deliveredDaysAgo (days : Z) : Order float :=
  stored "delivered" (Some (now (nov2 0) - days * dayMs)%Z).

(** A collection holding the first [n] orders of 2 November 2026, each
    under the number the generator gives it. *)
Definition busyDay (n : N) : list (Order float) :=
  map (fun i =>
         storedAs (formatOrderNumber (newDate (nov2 0)) (N.of_nat i))
           "pending" None)
    (seq 0 (N.to_nat n)).

(** A stored order with one item of seller 1 priced [p], commission 5
    percent, and one item of another seller. *)
Definition sale (p : float) : Order float :=
  mkOrder (Some "MT2611020001") 7
    [item 1 p 1%float; item 2 3%float 1%float]
    0%float 0%float 0%float 0%float 0%float
    "delivered" 5 None None None (Some (slotMidnight 2026 10 2)).


(** A stored order with two lines of seller 1. *)
Definition twoLines : Order float :=
  mkOrder (Some "MT2611020002") 7
    [item 1 20%float 1%float; item 1 0.1%float 3%float]
    0%float 0%float 0%float 0%float 0%float
    "delivered" 5 None None None (Some (slotMidnight 2026 10 2)).

(** An order of customer [c] in status [st], created [ms] milliseconds
    into 2 November 2026, numbered [number]. *)
Definition orderOf (c : N) (number : string) (st : string) (ms : Z)
  : Order float :=
  mkOrder (Some number) c [item 1 100%float 2%float] 200%float
    0%float 0%float 0%float 200%float st ms
    None None None (Some (slotMidnight 2026 10 2 + ms)%Z).

Definition twoCustomers : list (Order float) :=
  [ orderOf 7 "MT2611020001" "shipped" 10;
    orderOf 8 "MT2611020002" "pending" 20;
    orderOf 7 "MT2611020003" "delivered" 30 ].

(** The product collection: product 1 exists. *)
Definition catalog : list Chatbot.Product :=
  [Chatbot.mkProduct 1 "Teapot"].

(** The client store holding one order in status [st]. *)
Definition clientStore (st : string) : OrderSlice.State :=
  OrderSlice.mkState [OrderSlice.mkClientOrder "o1" st None None] None.

(** A client store with three orders and a current one; order [c] has
    an earlier return request. *)
Definition store3 : OrderSlice.State :=
  OrderSlice.mkState
    [ OrderSlice.mkClientOrder "a" "pending" None None;
      OrderSlice.mkClientOrder "b" "shipped" None (Some []);
      OrderSlice.mkClientOrder "c" "delivered" None
        (Some [OrderSlice.mkReturn "return_100" [2%N] "wrong size"
                 "approved" 100]) ]
    (Some (OrderSlice.mkClientOrder "b" "shipped" None (Some []))).

(** A clock whose readings all differ. *)
Definition ticking : OrderSlice.ReturnClock :=
  OrderSlice.mkReturnClock 5000 5001 5002 5003.

End Samples.

(** * Properties *)

Import OrderModel.

(** ** The hooks and [save] *)

Lemma fold_left_sumFrom {num : Type} {NUM : Number num} (A : Type) (f : A -> num)
  (l : list A) (a : num) :
  fold_left (fun acc x => add acc (f x)) l a = Spec.sumFrom a (map f l).
Proof.
  revert a. induction l as [|x l IH]; intros a; simpl; [reflexivity | apply IH].
Qed.

Lemma preSaveTotals_subtotal {num : Type} {NUM : Number num} (o : Order num) :
  subtotal (preSaveTotals o) = Spec.sumOfLines (items o).
Proof.
  unfold preSaveTotals, Spec.sumOfLines, Spec.sumInOrder. cbn [subtotal set_totals].
  apply (fold_left_sumFrom _ (fun it => mul (price it) (quantity it))).
Qed.

Lemma preSaveTotals_total {num : Type} {NUM : Number num} (o : Order num) :
  total (preSaveTotals o)
  = sub (add (add (subtotal (preSaveTotals o)) (tax o)) (shipping o))
      (discount o).
Proof. reflexivity. Qed.

Lemma preSaveOrderNumber_keeps {num : Type} (rt : Runtime)
  (db : list (Order num)) (o : Order num) :
  let o' := preSaveOrderNumber rt db o in
  items o' = items o /\ tax o' = tax o /\ shipping o' = shipping o
  /\ discount o' = discount o /\ status o' = status o
  /\ confirmedAt o' = confirmedAt o /\ shippedAt o' = shippedAt o
  /\ deliveredAt o' = deliveredAt o.
Proof.
  unfold preSaveOrderNumber. destruct (no_orderNumber o); simpl; repeat split.
Qed.

Lemma preSave_keeps {num : Type} {NUM : Number num} (rt : Runtime)
  (db : list (Order num)) (o : Order num) :
  let o' := preSave rt db o in
  items o' = items o /\ tax o' = tax o /\ shipping o' = shipping o
  /\ discount o' = discount o /\ status o' = status o
  /\ confirmedAt o' = confirmedAt o /\ shippedAt o' = shippedAt o
  /\ deliveredAt o' = deliveredAt o.
Proof.
  unfold preSave. simpl. apply preSaveOrderNumber_keeps.
Qed.

Lemma recomputed_totals {num : Type} {NUM : Number num} (rt : Runtime)
  (db : list (Order num)) (o : Order num) :
  subtotal (preSave rt db o) = Spec.sumOfLines (items o)
  /\ total (preSave rt db o)
     = sub (add (add (subtotal (preSave rt db o)) (tax o)) (shipping o))
         (discount o).
Proof.
  destruct (preSaveOrderNumber_keeps rt db o) as (Hi & Ht & Hs & Hd & _).
  unfold preSave. split.
  - rewrite preSaveTotals_subtotal. now rewrite Hi.
  - rewrite preSaveTotals_total, Ht, Hs, Hd. reflexivity.
Qed.


(** The document after [save]: the hooks' output, or the document as it
    was. *)
Lemma save_document {num : Type} {NUM : Number num} (v : bool) (rt : Runtime)
  (db : list (Order num)) (o : Order num) :
  document (save v rt db o) = preSave rt db o
  \/ document (save v rt db o) = o.
Proof.
  unfold save. destruct v; [destruct (invalidPaths o)|]; simpl; auto.
Qed.

(** ** C1: the totals hook *)



(** Scenario A on doubles: subtotal 250 and total 265. *)
Example scenarioA_totals :
  exists d,
    save true (Samples.nov2 0) [] Samples.scenarioA = Submitted d
    /\ subtotal d = 250%float /\ total d = 265%float.
Proof. eexists. repeat split. Qed.

(** On doubles the sums are the rounded ones: 0.1 * 3 is stored as
    0.30000000000000004, and three lines of 0.1, 0.2 and 0.3 give
    0.6000000000000001 in that order and 0.6 in the reverse order. *)
Example totals_on_doubles :
  subtotal (document (save true (Samples.nov2 0) [] Samples.tenths))
  = 0.30000000000000004%float
  /\ subtotal (document (save true (Samples.nov2 0) [] Samples.ascending))
     = 0.6000000000000001%float
  /\ subtotal (document (save true (Samples.nov2 0) [] Samples.descending))
     = 0.6%float.
Proof. repeat split. Qed.

(** ** C2: the status engine *)

Lemma stampStatus_status {num : Type} (rt : Runtime) (s : string)
  (o : Order num) :
  status (stampStatus rt s o) = s.
Proof.
  unfold stampStatus.
  destruct (String.eqb s "confirmed"); [reflexivity|].
  destruct (String.eqb s "shipped"); [reflexivity|].
  destruct (String.eqb s "delivered"); reflexivity.
Qed.

Lemma stampStatus_keeps {num : Type} (rt : Runtime) (s : string)
  (o : Order num) :
  items (stampStatus rt s o) = items o
  /\ tax (stampStatus rt s o) = tax o
  /\ shipping (stampStatus rt s o) = shipping o
  /\ discount (stampStatus rt s o) = discount o
  /\ orderNumber (stampStatus rt s o) = orderNumber o
  /\ subtotal (stampStatus rt s o) = subtotal o
  /\ total (stampStatus rt s o) = total o.
Proof.
  unfold stampStatus.
  destruct (String.eqb s "confirmed"); [repeat split|].
  destruct (String.eqb s "shipped"); [repeat split|].
  destruct (String.eqb s "delivered"); repeat split.
Qed.

(** The status of the document after [updateStatus], whether the save
    was submitted or rejected. *)
Lemma updateStatus_status {num : Type} {NUM : Number num} (rt : Runtime)
  (db : list (Order num)) (newStatus : string) (o : Order num) :
  status (document (updateStatus rt db newStatus o))
  = status (stampStatus rt newStatus o).
Proof.
  unfold updateStatus.
  destruct (save_document true rt db (stampStatus rt newStatus o)) as [E | E];
    rewrite E; [|reflexivity].
  now destruct (preSave_keeps rt db (stampStatus rt newStatus o))
    as (_ & _ & _ & _ & Hst & _).
Qed.

Lemma invalidPaths_stampStatus {num : Type} {NUM : Number num}
  (rt : Runtime) (s : string) (o : Order num) :
  invalidPaths (stampStatus rt s o)
  = ((if no_orderNumber o then [orderNumberPath] else [])
     ++ (if JS.includes statusEnum s then [] else [statusPath])
     ++ invalidItems 0 (items o))%list.
Proof.
  unfold invalidPaths, no_orderNumber.
  destruct (stampStatus_keeps rt s o) as (Hi & _ & _ & _ & Hn & _).
  now rewrite Hi, Hn, stampStatus_status.
Qed.

(** A request for a status of the schema, on an order that has its
    number and valid items, passes validation. *)
Lemma updateStatus_submits {num : Type} {NUM : Number num}
  (rt : Runtime) (db : list (Order num)) (s : string) (o : Order num) :
  no_orderNumber o = false ->
  invalidItems 0 (items o) = [] ->
  JS.includes statusEnum s = true ->
  updateStatus rt db s o = Submitted (preSave rt db (stampStatus rt s o)).
Proof.
  intros Hn Hi He. unfold updateStatus, save.
  now rewrite invalidPaths_stampStatus, Hn, Hi, He.
Qed.

(** The table holds the seven transitions of the specification and
    nothing else among the pairs tried here. *)
Example legal_transition_table :
  map (fun p => Spec.legal_transition (fst p) (snd p))
    [("pending", "confirmed"); ("confirmed", "processing");
     ("processing", "shipped"); ("shipped", "delivered");
     ("pending", "cancelled"); ("confirmed", "cancelled");
     ("delivered", "returned"); ("delivered", "processing");
     ("cancelled", "pending"); ("shipped", "cancelled")]
  = [true; true; true; true; true; true; true; false; false; false].
Proof. reflexivity. Qed.

(** C2, as stated, fails: a stored, delivered order asked to go back to
    processing is not refused. The transition is not in the table, yet
    [updateStatus] submits the order with its status changed. *)
Lemma updateStatus_accepts_illegal_transition :
  let o := Samples.stored "delivered" None in
  Spec.legal_transition (status o) "processing" = false
  /\ exists d,
       updateStatus (Samples.nov2 0) [] "processing" o = Submitted d
       /\ status d = "processing"
       /\ status d <> status o.
Proof.
  cbv zeta. split; [reflexivity|]. eexists. split; [reflexivity|].
  split; [reflexivity|]. cbn. discriminate.
Qed.

(** C2, amended. For an order that has its number and valid items, a
    request for any of the seven statuses of the schema is performed
    whatever the current status: the order is submitted with the
    requested status, legal transition or not, and nothing consults a
    transition table. A request for any other status is rejected with a
    validation error on [status], not with an invalid-transition error:
    nothing is submitted, and the document in memory carries the
    requested status. *)
Theorem updateStatus_by_enumeration {num : Type} {NUM : Number num}
  (rt : Runtime) (db : list (Order num)) (newStatus : string)
  (o : Order num) :
  no_orderNumber o = false ->
  invalidItems 0 (items o) = [] ->
  (JS.includes statusEnum newStatus = true ->
   exists d,
     updateStatus rt db newStatus o = Submitted d /\ status d = newStatus)
  /\ (JS.includes statusEnum newStatus = false ->
      exists d,
        updateStatus rt db newStatus o = ValidationError d [statusPath]
        /\ status d = newStatus).
Proof.
  intros Hn Hi. unfold updateStatus, save.
  rewrite invalidPaths_stampStatus, Hn, Hi. split; intros He; rewrite He.
  - eexists. split; [reflexivity|].
    destruct (preSave_keeps rt db (stampStatus rt newStatus o))
      as (_ & _ & _ & _ & Hst & _).
    rewrite Hst. apply stampStatus_status.
  - eexists. split; [reflexivity | apply stampStatus_status].
Qed.

Lemma updateStatus_by_enumeration_witness :
  (exists d,
     updateStatus (Samples.nov2 0) [] "shipped"
       (Samples.stored "cancelled" None) = Submitted d
     /\ status d = "shipped")
  /\ (exists d,
        updateStatus (Samples.nov2 0) [] "archived"
          (Samples.stored "delivered" None)
        = ValidationError d [statusPath]
        /\ status d = "archived").
Proof.
  split.
  - apply (updateStatus_by_enumeration (Samples.nov2 0) [] "shipped"
             (Samples.stored "cancelled" None)); reflexivity.
  - apply (updateStatus_by_enumeration (Samples.nov2 0) [] "archived"
             (Samples.stored "delivered" None)); reflexivity.
Defined.

(** ** C3: the sign of the total *)




(** ** C4 and C10: the return window *)

Lemma days_within_window (ms : Z) :
  inject_Z ms / inject_Z (1000 * 60 * 60 * 24) <= 30
  <-> (ms <= Spec.returnWindowMs)%Z.
Proof.
  unfold Spec.returnWindowMs, Qle, Qdiv, Qmult, Qinv, inject_Z. simpl. lia.
Qed.

Lemma canBeReturned_spec {num : Type} (rt : Runtime) (o : Order num) :
  canBeReturned rt o = true
  <-> status o = "delivered"
      /\ match deliveredAt o with
         | Some d => (now rt - d <= Spec.returnWindowMs)%Z
         | None => True
         end.
Proof.
  unfold canBeReturned, daysSinceDelivery.
  rewrite andb_true_iff, String.eqb_eq, Qle_bool_iff.
  destruct (deliveredAt o) as [d|].
  - rewrite days_within_window. reflexivity.
  - split; intros [H _]; split; auto. discriminate.
Qed.

(** C4, as stated, fails twice. A delivered order with no delivery date
    is returnable although no elapsed time can be measured; and for an
    order delivered 31 days ago the predicate only answers [false],
    while the one return-request operation of the code base, the
    [requestReturn] reducer, records the request as requested. *)
Lemma canBeReturned_differs_from_window_rule :
  (canBeReturned (Samples.nov2 0) (Samples.stored "delivered" None) = true
   /\ ~ Spec.returnEligible (Samples.nov2 0)
          (Samples.stored "delivered" None))
  /\ canBeReturned (Samples.nov2 0) (Samples.deliveredDaysAgo 31) = false
  /\ map OrderSlice.returns
       (OrderSlice.orders
          (OrderSlice.requestReturn Samples.ticking
             (Samples.clientStore "delivered") "o1" [1%N] "too late"))
     = [Some [OrderSlice.mkReturn "return_5000" [1%N] "too late"
                "requested" 5001]].
Proof.
  split; [split|split].
  - reflexivity.
  - intros [_ (d & Hd & _)]. discriminate Hd.
  - reflexivity.
  - reflexivity.
Qed.

(** C4, amended. [canBeReturned] answers [true] exactly when the status
    is 'delivered' and either no delivery date is stored or the time
    elapsed since [deliveredAt], as a duration in milliseconds, is at
    most 30 days; beyond that it answers [false]. *)
Theorem canBeReturned_iff {num : Type} (rt : Runtime) (o : Order num) :
  canBeReturned rt o = true
  <-> status o = "delivered"
      /\ (deliveredAt o = None
          \/ exists d, deliveredAt o = Some d
                       /\ (now rt - d <= 30 * 24 * 60 * 60 * 1000)%Z).
Proof.
  rewrite canBeReturned_spec. change (30 * 24 * 60 * 60 * 1000)%Z
    with Spec.returnWindowMs.
  destruct (deliveredAt o) as [d|]; split; intros [Hs H]; split; auto.
  - right. exists d. auto.
  - destruct H as [H | (d' & Hd & H)]; [discriminate|].
    injection Hd as <-. exact H.
Qed.

(** C10. A delivered order whose [deliveredAt] is unset is returnable:
    the days since delivery are taken to be zero. *)
Theorem canBeReturned_without_deliveredAt {num : Type} (rt : Runtime)
  (o : Order num) :
  status o = "delivered" ->
  deliveredAt o = None ->
  daysSinceDelivery rt o = 0 /\ canBeReturned rt o = true.
Proof.
  intros Hs Hd. split.
  - unfold daysSinceDelivery. now rewrite Hd.
  - apply canBeReturned_spec. rewrite Hd. auto.
Qed.

Lemma canBeReturned_without_deliveredAt_witness :
  daysSinceDelivery (Samples.nov2 0) (Samples.stored "delivered" None) = 0
  /\ canBeReturned (Samples.nov2 0) (Samples.stored "delivered" None) = true.
Proof.
  apply (canBeReturned_without_deliveredAt (Samples.nov2 0)
           (Samples.stored "delivered" None)); reflexivity.
Defined.

(** ** C5: cancellation *)

Lemma canBeCancelled_spec {num : Type} (o : Order num) :
  canBeCancelled o = true
  <-> status o = "pending" \/ status o = "confirmed".
Proof.
  unfold canBeCancelled, JS.includes. simpl.
  rewrite !orb_true_iff, !String.eqb_eq. intuition discriminate.
Qed.

(** C5, as stated, fails: a shipped order may not be cancelled according
    to [canBeCancelled], yet asking the model for 'cancelled' is accepted
    and changes its status, and so does the [cancelOrder] reducer of the
    client store. *)
Lemma shipped_order_gets_cancelled :
  let o := Samples.stored "shipped" None in
  canBeCancelled o = false
  /\ (exists d,
        updateStatus (Samples.nov2 0) [] "cancelled" o = Submitted d
        /\ status d = "cancelled")
  /\ map OrderSlice.status
       (OrderSlice.orders
          (OrderSlice.cancelOrder 5000 5001 (Samples.clientStore "shipped")
             "o1" "changed my mind"))
     = ["cancelled"].
Proof.
  cbv zeta. split; [reflexivity|]. split; [|reflexivity].
  eexists. split; reflexivity.
Qed.

(** C5, amended. [canBeCancelled] answers [true] exactly when the status
    is 'pending' or 'confirmed'. The answer is not enforced by the
    model: [updateStatus] with 'cancelled' sets the status to
    'cancelled' from every status, and on an order that has its number
    and valid items the cancelled order is submitted. *)
Theorem canBeCancelled_iff_and_not_enforced {num : Type} {NUM : Number num}
  (rt : Runtime) (db : list (Order num)) (o : Order num) :
  (canBeCancelled o = true
   <-> status o = "pending" \/ status o = "confirmed")
  /\ status (document (updateStatus rt db "cancelled" o)) = "cancelled"
  /\ (no_orderNumber o = false ->
      invalidItems 0 (items o) = [] ->
      exists d,
        updateStatus rt db "cancelled" o = Submitted d
        /\ status d = "cancelled").
Proof.
  split; [|split].
  - apply canBeCancelled_spec.
  - rewrite updateStatus_status. apply stampStatus_status.
  - intros Hn Hi. eexists. split.
    + now apply updateStatus_submits.
    + destruct (preSave_keeps rt db (stampStatus rt "cancelled" o))
        as (_ & _ & _ & _ & Hst & _).
      rewrite Hst. apply stampStatus_status.
Qed.

Lemma canBeCancelled_iff_and_not_enforced_witness :
  canBeCancelled (Samples.stored "shipped" None) = false
  /\ exists d,
       updateStatus (Samples.nov2 0) (Samples.busyDay 3) "cancelled"
         (Samples.stored "shipped" None) = Submitted d
       /\ status d = "cancelled".
Proof.
  split; [reflexivity|].
  apply (canBeCancelled_iff_and_not_enforced (Samples.nov2 0)
           (Samples.busyDay 3) (Samples.stored "shipped" None));
    reflexivity.
Defined.

(** ** C7: the transition timestamps *)

Lemma save_dates {num : Type} {NUM : Number num} (v : bool) (rt : Runtime)
  (db : list (Order num)) (o : Order num) :
  confirmedAt (document (save v rt db o)) = confirmedAt o
  /\ shippedAt (document (save v rt db o)) = shippedAt o
  /\ deliveredAt (document (save v rt db o)) = deliveredAt o.
Proof.
  destruct (save_document v rt db o) as [E | E]; rewrite E;
    [|repeat split].
  destruct (preSave_keeps rt db o) as (_ & _ & _ & _ & _ & Hc & Hs & Hd).
  auto.
Qed.

Lemma updateStatus_dates {num : Type} {NUM : Number num} (rt : Runtime)
  (db : list (Order num)) (s : string) (o : Order num) :
  confirmedAt (document (updateStatus rt db s o))
  = confirmedAt (stampStatus rt s o)
  /\ shippedAt (document (updateStatus rt db s o))
     = shippedAt (stampStatus rt s o)
  /\ deliveredAt (document (updateStatus rt db s o))
     = deliveredAt (stampStatus rt s o).
Proof. unfold updateStatus. apply save_dates. Qed.

Lemma stampStatus_dates {num : Type} (rt : Runtime) (s : string)
  (o : Order num) :
  confirmedAt (stampStatus rt s o)
  = (if String.eqb s "confirmed" then Some (now rt) else confirmedAt o)
  /\ shippedAt (stampStatus rt s o)
     = (if String.eqb s "shipped" then Some (now rt) else shippedAt o)
  /\ deliveredAt (stampStatus rt s o)
     = (if String.eqb s "delivered" then Some (now rt) else deliveredAt o).
Proof.
  unfold stampStatus.
  destruct (String.eqb s "confirmed") eqn:Ec.
  - apply String.eqb_eq in Ec. subst s. repeat split.
  - destruct (String.eqb s "shipped") eqn:Es.
    + apply String.eqb_eq in Es. subst s. repeat split.
    + destruct (String.eqb s "delivered"); repeat split.
Qed.

(** C7, as stated, fails: the delivery date of an order is overwritten
    when 'delivered' is requested a second time, one second later. *)
Lemma deliveredAt_overwritten :
  let o1 := document (updateStatus (Samples.nov2 0) [] "delivered"
                        (Samples.stored "shipped" None)) in
  let o2 := document (updateStatus (Samples.nov2 1000) [] "delivered" o1) in
  deliveredAt o1 = Some (now (Samples.nov2 0))
  /\ deliveredAt o2 = Some (now (Samples.nov2 1000))
  /\ deliveredAt o2 <> deliveredAt o1.
Proof.
  cbv zeta. split; [reflexivity|]. split; [reflexivity|].
  vm_compute. discriminate.
Qed.

(** C7, amended. Requesting 'confirmed', 'shipped' or 'delivered' stores
    the current time in [confirmedAt], [shippedAt] or [deliveredAt], on
    every such request, so a repeated request overwrites the date; a
    request for any other status leaves the date as it was; no request
    and no save clears a date that is set. *)
Theorem updateStatus_timestamps {num : Type} {NUM : Number num}
  (rt : Runtime) (db : list (Order num)) (s : string) (o : Order num) :
  let o' := document (updateStatus rt db s o) in
  (s = "confirmed" -> confirmedAt o' = Some (now rt))
  /\ (s = "shipped" -> shippedAt o' = Some (now rt))
  /\ (s = "delivered" -> deliveredAt o' = Some (now rt))
  /\ (s <> "confirmed" -> confirmedAt o' = confirmedAt o)
  /\ (s <> "shipped" -> shippedAt o' = shippedAt o)
  /\ (s <> "delivered" -> deliveredAt o' = deliveredAt o)
  /\ (confirmedAt o <> None -> confirmedAt o' <> None)
  /\ (shippedAt o <> None -> shippedAt o' <> None)
  /\ (deliveredAt o <> None -> deliveredAt o' <> None)
  /\ (forall v,
        confirmedAt (document (save v rt db o)) = confirmedAt o
        /\ shippedAt (document (save v rt db o)) = shippedAt o
        /\ deliveredAt (document (save v rt db o)) = deliveredAt o).
Proof.
  destruct (updateStatus_dates rt db s o) as (Hc & Hs & Hd).
  destruct (stampStatus_dates rt s o) as (Hc' & Hs' & Hd').
  cbv zeta. rewrite Hc, Hs, Hd, Hc', Hs', Hd'.
  repeat split; try apply save_dates.
  - intros ->. reflexivity.
  - intros ->. reflexivity.
  - intros ->. reflexivity.
  - intros H. apply String.eqb_neq in H. now rewrite H.
  - intros H. apply String.eqb_neq in H. now rewrite H.
  - intros H. apply String.eqb_neq in H. now rewrite H.
  - intros H. destruct (String.eqb s "confirmed"); [discriminate | exact H].
  - intros H. destruct (String.eqb s "shipped"); [discriminate | exact H].
  - intros H. destruct (String.eqb s "delivered"); [discriminate | exact H].
Qed.

Lemma updateStatus_timestamps_witness :
  deliveredAt
    (document (updateStatus (Samples.nov2 0) [] "delivered"
                 (Samples.stored "shipped" None)))
  = Some (now (Samples.nov2 0))
  /\ confirmedAt
       (document (updateStatus (Samples.nov2 0) [] "delivered"
                    (Samples.stored "shipped" None)))
     = confirmedAt (Samples.stored "shipped" None).
Proof.
  pose proof (updateStatus_timestamps (Samples.nov2 0) [] "delivered"
                (Samples.stored "shipped" None)) as H.
  cbv zeta in H.
  destruct H as (_ & _ & Hd & Hc & _).
  split; [apply Hd; reflexivity | apply Hc; discriminate].
Defined.

(** ** Decimal strings *)

Section DecimalStrings.

Import JS.





Lemma append_cancel_l (p s t : string) : p ++ s = p ++ t -> s = t.
Proof.
  induction p as [|c p IH]; simpl; intros H; [exact H|].
  injection H as H. auto.
Qed.

Lemma digit_value (d : N) : (d < 10)%N -> (N_of_ascii (digit d) - 48 = d)%N.
Proof.
  intros H. unfold digit. rewrite N_ascii_embedding by lia. lia.
Qed.



Lemma parse_from_append (s t : string) (acc : N) :
  parse_from acc (s ++ t) = parse_from (parse_from acc s) t.
Proof.
  revert acc. induction s as [|c s IH]; intros acc; simpl;
    [reflexivity | apply IH].
Qed.


Lemma parseInt_toString (n : N) : parseInt (toString n) = n.
Proof.
  unfold parseInt. funelim (toString n).
  - cbn [parse_from]. rewrite digit_value by assumption. lia.
  - rewrite parse_from_append.
    match goal with IH : parse_from 0 _ = _ |- _ => rewrite IH end.
    cbn [parse_from]. rewrite digit_value by (apply N.mod_lt; discriminate).
    rewrite (N.div_mod n 10) at 3 by discriminate. lia.
Qed.















End DecimalStrings.

(** ** C6: the order number *)





Lemma formatOrderNumber_nonempty (date : JSDate) (count : N) :
  String.eqb (formatOrderNumber date count) "" = false.
Proof. reflexivity. Qed.


Lemma hook_orderNumber {num : Type} (rt : Runtime) (db : list (Order num))
  (o : Order num) :
  orderNumber (preSaveOrderNumber rt db o)
  = if no_orderNumber o
    then Some (formatOrderNumber (newDate rt) (countToday rt db (newDate rt)))
    else orderNumber o.
Proof.
  unfold preSaveOrderNumber. now destruct (no_orderNumber o).
Qed.

Lemma preSave_orderNumber {num : Type} {NUM : Number num} (rt : Runtime)
  (db : list (Order num)) (o : Order num) :
  orderNumber (preSave rt db o) = orderNumber (preSaveOrderNumber rt db o).
Proof. reflexivity. Qed.

Lemma preSave_has_orderNumber {num : Type} {NUM : Number num} (rt : Runtime)
  (db : list (Order num)) (o : Order num) :
  no_orderNumber (preSave rt db o) = false.
Proof.
  unfold no_orderNumber at 1. rewrite preSave_orderNumber, hook_orderNumber.
  destruct (no_orderNumber o) eqn:E.
  - apply formatOrderNumber_nonempty.
  - exact E.
Qed.






(** ** C8: commission of a seller's items *)

Lemma fold_left_count (A : Type) (l : list A) (a : N) :
  fold_left (fun acc _ => (acc + 1)%N) l a = (a + N.of_nat (List.length l))%N.
Proof.
  revert a. induction l as [|x l IH]; intros a; simpl List.length;
    cbn [fold_left]; [lia | rewrite IH; lia].
Qed.


(** The one record the [$group] stage returns, field by field. *)
Lemma analytics_shape {num : Type} {NUM : Number num} (db : list (Order num))
  (sellerId : N) (s e : Z) (a : Analytics num) :
  In a (getSalesAnalytics db sellerId s e) ->
  let its := map snd (salesRows db sellerId s e) in
  totalOrders a = N.of_nat (List.length its)
  /\ totalRevenue a = Spec.sumOfLines its
  /\ totalCommission a = Spec.sumOfCommissions its.
Proof.
  unfold getSalesAnalytics.
  destruct (salesRows db sellerId s e) as [|r rows] eqn:E; [intros []|].
  intros [<- | []]. cbn [totalOrders totalRevenue totalCommission].
  split; [|split].
  - rewrite fold_left_count, length_map. reflexivity.
  - rewrite (fold_left_sumFrom _
               (fun r => mul (price (snd r)) (quantity (snd r)))).
    unfold Spec.sumOfLines, Spec.sumInOrder. now rewrite map_map.
  - rewrite (fold_left_sumFrom _
               (fun r => mul (mul (price (snd r)) (quantity (snd r)))
                           (div (commission (snd r)) hundred))).
    unfold Spec.sumOfCommissions, Spec.sumInOrder. now rewrite map_map.
Qed.



(** ** C9: two generations on the same day *)








(** * Further properties of the order model *)

(** ** Saving *)

Lemma invalidPaths_after_hooks {num : Type} {NUM : Number num}
  (rt : Runtime) (db : list (Order num)) (o : Order num) (s t : num) :
  invalidPaths o = [] ->
  invalidPaths (set_totals s t (preSave rt db o)) = [].
Proof.
  intros H. unfold invalidPaths in *.
  change (no_orderNumber (set_totals s t (preSave rt db o)))
    with (no_orderNumber (preSave rt db o)).
  rewrite preSave_has_orderNumber.
  destruct (preSave_keeps rt db o) as (Hi & _ & _ & _ & Hst & _).
  change (status (set_totals s t (preSave rt db o)))
    with (status (preSave rt db o)).
  change (items (set_totals s t (preSave rt db o)))
    with (items (preSave rt db o)).
  rewrite Hi, Hst.
  destruct (no_orderNumber o); [discriminate | exact H].
Qed.

(** X1. A saved order is a fixed point of saving, even after its totals
    were tampered with: whatever is written into [subtotal] and [total]
    afterwards, running the hooks again, at any time and against any
    collection, gives back exactly the document they produced the first
    time; and when a save with the default options submitted the
    document, every later save of the tampered document submits that
    same document again. *)
Theorem save_restores_saved_order {num : Type} {NUM : Number num}
  (rt1 rt2 : Runtime) (db1 db2 : list (Order num)) (o : Order num)
  (s t : num) :
  preSave rt2 db2 (set_totals s t (preSave rt1 db1 o)) = preSave rt1 db1 o
  /\ (forall d v,
        save true rt1 db1 o = Submitted d ->
        save v rt2 db2 (set_totals s t d) = Submitted d).
Proof.
  assert (Hfix : preSave rt2 db2 (set_totals s t (preSave rt1 db1 o))
                 = preSave rt1 db1 o).
  { unfold preSave at 1. unfold preSaveOrderNumber at 1.
    change (no_orderNumber (set_totals s t (preSave rt1 db1 o)))
      with (no_orderNumber (preSave rt1 db1 o)).
    rewrite (preSave_has_orderNumber rt1 db1 o).
    unfold preSave. reflexivity. }
  split; [exact Hfix|].
  intros d v H. unfold save in H.
  destruct (invalidPaths o) eqn:E; [|discriminate]. injection H as <-.
  unfold save. rewrite (invalidPaths_after_hooks rt1 db1 o s t E), Hfix.
  now destruct v.
Qed.

Lemma save_restores_saved_order_witness :
  save true (Samples.nov2 10) (Samples.busyDay 3)
    (set_totals 1%float 2%float (preSave (Samples.nov2 0) [] Samples.tenths))
  = Submitted (preSave (Samples.nov2 0) [] Samples.tenths).
Proof.
  apply (save_restores_saved_order (Samples.nov2 0) (Samples.nov2 10) []
           (Samples.busyDay 3) Samples.tenths 1%float 2%float).
  reflexivity.
Defined.

(** X2. A status update is a save with the default options. On an order
    that has its number and valid items, a request for a status of the
    schema submits the order with its items and number unchanged and
    the totals recomputed. On an order without a number the save is
    rejected before the hooks: no number is generated and subtotal and
    total stay as they were, while the document already carries the
    requested status. *)
Theorem updateStatus_saves {num : Type} {NUM : Number num}
  (rt : Runtime) (db : list (Order num)) (s : string) (o : Order num) :
  (no_orderNumber o = false ->
   invalidItems 0 (items o) = [] ->
   JS.includes statusEnum s = true ->
   exists d,
     updateStatus rt db s o = Submitted d
     /\ items d = items o
     /\ orderNumber d = orderNumber o
     /\ subtotal d = Spec.sumOfLines (items o)
     /\ total d
        = sub (add (add (subtotal d) (tax o)) (shipping o)) (discount o))
  /\ (no_orderNumber o = true ->
      exists d paths,
        updateStatus rt db s o = ValidationError d paths
        /\ In orderNumberPath paths
        /\ orderNumber d = orderNumber o
        /\ subtotal d = subtotal o
        /\ total d = total o
        /\ status d = s).
Proof.
  destruct (stampStatus_keeps rt s o) as (Ki & Kt & Ks & Kd & Kn & Ksub & Ktot).
  unfold updateStatus, save. rewrite invalidPaths_stampStatus. split.
  - intros Hn Hi He. rewrite Hn, Hi, He. eexists. split; [reflexivity|].
    destruct (preSave_keeps rt db (stampStatus rt s o)) as (Hi' & _).
    destruct (recomputed_totals rt db (stampStatus rt s o)) as [Hsub Htot].
    rewrite Hi', Hsub, Htot, Hsub, Ki, Kt, Ks, Kd.
    repeat split.
    rewrite preSave_orderNumber, hook_orderNumber.
    unfold no_orderNumber. rewrite Kn. fold (no_orderNumber o).
    now rewrite Hn.
  - intros Hn. rewrite Hn. cbn [app]. do 2 eexists.
    split; [reflexivity|]. split; [now left|].
    repeat split; try assumption. apply stampStatus_status.
Qed.

Lemma updateStatus_saves_witness :
  (exists d,
     updateStatus (Samples.nov2 0) [] "confirmed" Samples.tenths = Submitted d
     /\ items d = items Samples.tenths
     /\ orderNumber d = orderNumber Samples.tenths
     /\ subtotal d = Spec.sumOfLines (items Samples.tenths)
     /\ total d
        = sub (add (add (subtotal d) (tax Samples.tenths))
                 (shipping Samples.tenths)) (discount Samples.tenths))
  /\ (exists d paths,
        updateStatus (Samples.nov2 0) [] "confirmed"
          (Samples.draft [Samples.item 1 100%float 2%float]
             0%float 0%float 0%float)
        = ValidationError d paths
        /\ In orderNumberPath paths
        /\ orderNumber d = None
        /\ subtotal d = 0%float
        /\ total d = 0%float
        /\ status d = "confirmed").
Proof.
  split.
  - apply (updateStatus_saves (Samples.nov2 0) [] "confirmed" Samples.tenths);
      reflexivity.
  - apply (updateStatus_saves (Samples.nov2 0) [] "confirmed"
             (Samples.draft [Samples.item 1 100%float 2%float]
                0%float 0%float 0%float)).
    reflexivity.
Defined.

(** ** Cancellation and return eligibility *)

(** X3. No order is cancellable and returnable at the same time. *)
Theorem never_cancellable_and_returnable {num : Type} (rt : Runtime)
  (o : Order num) :
  canBeCancelled o && canBeReturned rt o = false.
Proof.
  destruct (canBeCancelled o) eqn:Ec; [|reflexivity].
  destruct (canBeReturned rt o) eqn:Er; [|reflexivity].
  apply canBeCancelled_spec in Ec. apply canBeReturned_spec in Er.
  destruct Er as [Er _]. rewrite Er in Ec. destruct Ec; discriminate.
Qed.

(** X4. After an order is marked delivered at one time, it is returnable
    at another time exactly when at most thirty days (2,592,000,000 ms)
    have passed between the two; the boundary instant is included. *)
Theorem returnable_after_delivery {num : Type} {NUM : Number num}
  (rt rt' : Runtime) (db : list (Order num)) (o : Order num) :
  canBeReturned rt' (document (updateStatus rt db "delivered" o)) = true
  <-> (now rt' - now rt <= 2592000000)%Z.
Proof.
  rewrite canBeReturned_spec.
  rewrite (updateStatus_status rt db "delivered" o), stampStatus_status.
  destruct (updateStatus_dates rt db "delivered" o) as (_ & _ & Hd).
  destruct (stampStatus_dates rt "delivered" o) as (_ & _ & Hd').
  rewrite Hd, Hd'. simpl. change Spec.returnWindowMs with 2592000000%Z.
  tauto.
Qed.

(** ** Counting the orders of a day *)

Lemma created_within_split {num : Type} (a b c : Z) (d : Order num) :
  (a <= b)%Z -> (b <= c)%Z ->
  created_within a c d = created_within a b d || created_within b c d
  /\ created_within a b d && created_within b c d = false.
Proof.
  intros Hab Hbc. unfold created_within.
  destruct (createdAt d) as [t|]; [|split; reflexivity].
  destruct (a <=? t)%Z eqn:E1, (t <? c)%Z eqn:E2, (t <? b)%Z eqn:E3,
    (b <=? t)%Z eqn:E4; split; try reflexivity; exfalso;
    try (apply Z.leb_le in E1); try (apply Z.leb_gt in E1);
    try (apply Z.ltb_lt in E2); try (apply Z.ltb_ge in E2);
    try (apply Z.ltb_lt in E3); try (apply Z.ltb_ge in E3);
    try (apply Z.leb_le in E4); try (apply Z.leb_gt in E4); lia.
Qed.

(** X6. The counting windows are half-open, so adjacent windows never
    count an order twice nor miss one: for bounds a <= b <= c the count
    over [a, c) is the count over [a, b) plus the count over [b, c). *)
Theorem countDocuments_adjacent_windows {num : Type} (db : list (Order num))
  (a b c : Z) :
  (a <= b)%Z -> (b <= c)%Z ->
  countDocuments db a c
  = (countDocuments db a b + countDocuments db b c)%N.
Proof.
  intros Hab Hbc. unfold countDocuments.
  induction db as [|d db IH]; [reflexivity|].
  cbn [filter].
  destruct (created_within_split a b c d Hab Hbc) as [Hor Hand].
  rewrite Hor.
  destruct (created_within a b d), (created_within b c d);
    try discriminate; cbn [orb List.length]; lia.
Qed.

Lemma countDocuments_adjacent_windows_witness :
  countDocuments (Samples.busyDay 3)
    (Samples.slotMidnight 2026 10 1) (Samples.slotMidnight 2026 10 3)
  = (countDocuments (Samples.busyDay 3)
       (Samples.slotMidnight 2026 10 1) (Samples.slotMidnight 2026 10 2)
     + countDocuments (Samples.busyDay 3)
         (Samples.slotMidnight 2026 10 2) (Samples.slotMidnight 2026 10 3))%N.
Proof.
  apply (countDocuments_adjacent_windows (Samples.busyDay 3));
    vm_compute; discriminate.
Defined.

Lemma countDocuments_none {num : Type} (db : list (Order num)) (from to : Z) :
  (forall d t, In d db -> createdAt d = Some t -> ~ (from <= t < to)%Z) ->
  countDocuments db from to = 0%N.
Proof.
  intros H. unfold countDocuments.
  induction db as [|d db IH]; [reflexivity|].
  cbn [filter]. unfold created_within at 1.
  destruct (createdAt d) as [t|] eqn:Et.
  - destruct ((from <=? t)%Z && (t <? to)%Z) eqn:E.
    + exfalso. apply andb_true_iff in E. destruct E as [E1 E2].
      apply Z.leb_le in E1. apply Z.ltb_lt in E2.
      apply (H d t); [now left | assumption | lia].
    + apply IH. intros d' t' Hin. apply H. now right.
  - apply IH. intros d' t' Hin. apply H. now right.
Qed.

(** X7. The sequence restarts every day: when no stored order was
    created within the current local day, the order-number hook gives an
    order without a number the sequence 0001, whatever the collection
    holds from other days, and a save with validation switched off
    submits the order under that number. *)
Theorem first_order_of_the_day {num : Type} {NUM : Number num}
  (rt : Runtime) (db : list (Order num)) (o : Order num) :
  no_orderNumber o = true ->
  (forall d t, In d db -> createdAt d = Some t -> ~ Spec.withinToday rt t) ->
  orderNumber (preSaveOrderNumber rt db o)
  = Some ("MT" ++ year2 (newDate rt) ++ month2 (newDate rt)
          ++ day2 (newDate rt) ++ "0001")
  /\ exists d,
       save false rt db o = Submitted d
       /\ orderNumber d = orderNumber (preSaveOrderNumber rt db o).
Proof.
  intros Hno Hnone. split.
  - rewrite hook_orderNumber, Hno.
    unfold countToday. rewrite countDocuments_none by exact Hnone.
    reflexivity.
  - eexists. split; reflexivity.
Qed.

Lemma first_order_of_the_day_witness :
  orderNumber
    (preSaveOrderNumber (Samples.nov2 0) [Samples.scenarioA]
       (Samples.draft [Samples.item 1 100%float 2%float]
          0%float 0%float 0%float))
  = Some "MT2611020001"
  /\ exists d,
       save false (Samples.nov2 0) [Samples.scenarioA]
         (Samples.draft [Samples.item 1 100%float 2%float]
            0%float 0%float 0%float) = Submitted d
       /\ orderNumber d
          = orderNumber
              (preSaveOrderNumber (Samples.nov2 0) [Samples.scenarioA]
                 (Samples.draft [Samples.item 1 100%float 2%float]
                    0%float 0%float 0%float)).
Proof.
  apply (first_order_of_the_day (Samples.nov2 0) [Samples.scenarioA]
           (Samples.draft [Samples.item 1 100%float 2%float]
              0%float 0%float 0%float)).
  - reflexivity.
  - intros d t [<- | []] Ht. injection Ht as <-.
    intros [H _]. vm_compute in H. apply H. reflexivity.
Defined.

(** ** Sales analytics and the date-range query *)






Lemma salesRows_app {num : Type} (db1 db2 : list (Order num)) (sellerId : N)
  (s e : Z) :
  salesRows (db1 ++ db2) sellerId s e
  = (salesRows db1 sellerId s e ++ salesRows db2 sellerId s e)%list.
Proof.
  unfold salesRows, unwindItems.
  now rewrite filter_app, flat_map_app, filter_app.
Qed.

Lemma salesRows_skip {num : Type} (o : Order num) (db : list (Order num))
  (sellerId : N) (s e : Z) :
  matchOrder sellerId s e o = false ->
  salesRows (o :: db) sellerId s e = salesRows db sellerId s e.
Proof.
  intros H. unfold salesRows. cbn [filter]. now rewrite H.
Qed.

(** X9. Cancelled and returned orders, orders dated outside the range
    and orders without an item of the seller do not count: removing
    such an order from the collection, wherever it sits, leaves the
    analytics of the seller unchanged. *)
Theorem analytics_ignore_excluded_orders {num : Type} {NUM : Number num}
  (db1 db2 : list (Order num)) (o : Order num) (sellerId : N)
  (startDate endDate : Z) :
  status o = "cancelled" \/ status o = "returned"
  \/ (orderDate o < startDate)%Z \/ (endDate < orderDate o)%Z
  \/ Forall (fun it => seller it <> sellerId) (items o) ->
  getSalesAnalytics (db1 ++ o :: db2) sellerId startDate endDate
  = getSalesAnalytics (db1 ++ db2) sellerId startDate endDate.
Proof.
  intros H. unfold getSalesAnalytics.
  rewrite !salesRows_app, salesRows_skip; [reflexivity|].
  unfold matchOrder.
  destruct H as [H | [H | [H | [H | H]]]].
  - rewrite H. now rewrite andb_false_r.
  - rewrite H. now rewrite andb_false_r.
  - apply Z.leb_gt in H. rewrite H. now rewrite andb_false_r.
  - apply Z.leb_gt in H. rewrite H.
    now rewrite !andb_false_r.
  - assert (E : existsb (sells sellerId) (items o) = false).
    { induction H as [|it its Hit _ IH]; [reflexivity|]. simpl.
      rewrite IH, orb_false_r. unfold sells. now apply N.eqb_neq. }
    now rewrite E.
Qed.

Lemma analytics_ignore_excluded_orders_witness :
  getSalesAnalytics
    ([Samples.sale 40%float] ++ Samples.stored "cancelled" None :: []) 1 0 10
  = getSalesAnalytics ([Samples.sale 40%float] ++ []) 1 0 10.
Proof.
  apply (analytics_ignore_excluded_orders [Samples.sale 40%float] []
           (Samples.stored "cancelled" None) 1 0 10).
  left. reflexivity.
Defined.

(** The seller's lines of an order. *)
Lemma seller_lines_of_order {num : Type} (sellerId : N) (o : Order num)
  (its : list (OrderItem num)) :
  List.length
    (filter (fun r : Order num * OrderItem num => sells sellerId (snd r))
       (map (fun it => (o, it)) its))
  = List.length (filter (sells sellerId) its).
Proof.
  induction its as [|it its IH]; [reflexivity|]. cbn [map filter snd].
  destruct (sells sellerId it); simpl; now rewrite IH.
Qed.

Lemma seller_lines_total {num : Type} (sellerId : N) (l : list (Order num)) :
  List.length
    (filter (fun r : Order num * OrderItem num => sells sellerId (snd r))
       (unwindItems l))
  = list_sum
      (map (fun o => List.length (filter (sells sellerId) (items o))) l).
Proof.
  induction l as [|o l IH]; [reflexivity|].
  unfold unwindItems, list_sum in *. cbn [flat_map map fold_right].
  rewrite filter_app, length_app, seller_lines_of_order. now rewrite IH.
Qed.

Lemma list_sum_at_least (l : list nat) :
  Forall (fun n => (1 <= n)%nat) l ->
  (List.length l <= list_sum l)%nat
  /\ (Exists (fun n => (2 <= n)%nat) l -> (List.length l < list_sum l)%nat).
Proof.
  unfold list_sum.
  induction 1 as [|n l Hn _ [IH1 IH2]]; cbn [List.length fold_right].
  - split; [lia | intros H; inversion H].
  - cbv beta in Hn. split; [lia|]. intros H.
    inversion H as [? ? H2 | ? ? Hl]; subst; [cbv beta in H2; lia|].
    specialize (IH2 Hl). lia.
Qed.

(** X10. [totalOrders] counts the seller's order lines, not orders: it
    is the number of lines of the seller over the selected orders,
    which is at least the number of selected orders and strictly more
    as soon as one selected order has two lines of the seller; the
    number of selected orders is at most the count of the seller's
    orders that the seller statistics report. *)
Theorem totalOrders_counts_lines {num : Type} {NUM : Number num}
  (db : list (Order num)) (sellerId : N) (startDate endDate : Z)
  (a : Analytics num) :
  In a (getSalesAnalytics db sellerId startDate endDate) ->
  let selected := filter (matchOrder sellerId startDate endDate) db in
  let lines (o : Order num) :=
    List.length (filter (sells sellerId) (items o)) in
  totalOrders a = N.of_nat (list_sum (map lines selected))
  /\ (N.of_nat (List.length selected) <= totalOrders a)%N
  /\ (Exists (fun o => (2 <= lines o)%nat) selected ->
      (N.of_nat (List.length selected) < totalOrders a)%N)
  /\ (N.of_nat (List.length selected)
      <= Chatbot.countSellerOrders db sellerId)%N.
Proof.
  intros Ha. cbv zeta.
  destruct (analytics_shape db sellerId startDate endDate a Ha) as (Hn & _).
  rewrite Hn, length_map. unfold salesRows. rewrite seller_lines_total.
  set (selected := filter (matchOrder sellerId startDate endDate) db).
  set (lines := fun o : Order num =>
                  List.length (filter (sells sellerId) (items o))).
  assert (F : Forall (fun n => (1 <= n)%nat) (map lines selected)).
  { apply Forall_map, Forall_forall. intros o Ho. apply filter_In in Ho.
    destruct Ho as [_ Ho]. unfold matchOrder in Ho.
    apply andb_true_iff in Ho. destruct Ho as [Ho _].
    apply andb_true_iff in Ho. destruct Ho as [Ho _].
    apply existsb_exists in Ho. destruct Ho as (it & Hin & Hs).
    unfold lines.
    assert (Hf : In it (filter (sells sellerId) (items o)))
      by (apply filter_In; split; assumption).
    destruct (filter (sells sellerId) (items o)); [destruct Hf | simpl; lia]. }
  destruct (list_sum_at_least _ F) as [Hle Hlt]. rewrite length_map in Hle, Hlt.
  split; [reflexivity|]. split; [lia|]. split.
  - intros He.
    assert (He' : Exists (fun n => (2 <= n)%nat) (map lines selected)).
    { apply Exists_exists in He. destruct He as (o & Ho & H2).
      apply Exists_exists. exists (lines o). split; [now apply in_map | exact H2]. }
    specialize (Hlt He'). lia.
  - unfold Chatbot.countSellerOrders.
    assert (H : (List.length selected
                 <= List.length
                      (filter (fun o => existsb (sells sellerId) (items o)) db))%nat).
    { unfold selected. clear. induction db as [|o db IH]; [simpl; lia|].
      cbn [filter]. unfold matchOrder at 1.
      destruct (existsb (sells sellerId) (items o)); cbn [andb].
      - destruct (_ && _); simpl; lia.
      - exact IH. }
    lia.
Qed.

Lemma totalOrders_counts_lines_witness :
  totalOrders
    (hd (mkAnalytics 0 zero zero)
       (getSalesAnalytics [Samples.twoLines; Samples.sale 40%float] 1 0 10))
  = 3%N
  /\ (2 < totalOrders
            (hd (mkAnalytics 0 zero zero)
               (getSalesAnalytics [Samples.twoLines; Samples.sale 40%float]
                  1 0 10)))%N.
Proof.
  destruct (totalOrders_counts_lines
              [Samples.twoLines; Samples.sale 40%float] 1 0 10
              (hd (mkAnalytics 0 zero zero)
                 (getSalesAnalytics [Samples.twoLines; Samples.sale 40%float]
                    1 0 10)))
    as (Hn & _ & Hlt & _).
  - left. reflexivity.
  - split; [exact Hn|]. apply Hlt. left. simpl. lia.
Defined.

Lemma filter_filter_bool (A : Type) (f g : A -> bool) (l : list A) :
  filter f (filter g l) = filter (fun x => g x && f x) l.
Proof.
  induction l as [|x l IH]; [reflexivity|]. cbn [filter].
  destruct (g x); cbn [andb filter]; [destruct (f x); now rewrite IH | exact IH].
Qed.



Lemma date_range_inter {num : Type} (db : list (Order num)) (s e s' e' : Z) :
  getOrdersByDateRange (getOrdersByDateRange db s e) s' e'
  = getOrdersByDateRange db (Z.max s s') (Z.min e e').
Proof.
  unfold getOrdersByDateRange. rewrite filter_filter_bool.
  apply filter_ext. intros o. unfold inDateRange.
  destruct (s <=? orderDate o)%Z eqn:E1, (orderDate o <=? e)%Z eqn:E2,
    (s' <=? orderDate o)%Z eqn:E3, (orderDate o <=? e')%Z eqn:E4,
    (Z.max s s' <=? orderDate o)%Z eqn:E5,
    (orderDate o <=? Z.min e e')%Z eqn:E6; try reflexivity; exfalso;
    try (apply Z.leb_le in E1); try (apply Z.leb_gt in E1);
    try (apply Z.leb_le in E2); try (apply Z.leb_gt in E2);
    try (apply Z.leb_le in E3); try (apply Z.leb_gt in E3);
    try (apply Z.leb_le in E4); try (apply Z.leb_gt in E4);
    try (apply Z.leb_le in E5); try (apply Z.leb_gt in E5);
    try (apply Z.leb_le in E6); try (apply Z.leb_gt in E6); lia.
Qed.

Lemma date_range_empty {num : Type} (db : list (Order num)) (s e : Z) :
  (e < s)%Z -> getOrdersByDateRange db s e = [].
Proof.
  intros H. unfold getOrdersByDateRange.
  induction db as [|o db IH]; [reflexivity|]. cbn [filter].
  unfold inDateRange at 1.
  destruct (s <=? orderDate o)%Z eqn:E1; [|exact IH].
  destruct (orderDate o <=? e)%Z eqn:E2; [|exact IH].
  apply Z.leb_le in E1. apply Z.leb_le in E2. lia.
Qed.

(** X12. Date-range queries compose by intersection: querying the result
    of one query again gives the orders dated in both ranges, in the
    order the collection holds them, and nothing when the ranges do not
    meet; both bounds of a range are inclusive. *)
Theorem getOrdersByDateRange_nested {num : Type}
  (db : list (Order num)) (s e s' e' : Z) :
  getOrdersByDateRange (getOrdersByDateRange db s e) s' e'
  = getOrdersByDateRange db (Z.max s s') (Z.min e e')
  /\ ((Z.min e e' < Z.max s s')%Z ->
      getOrdersByDateRange (getOrdersByDateRange db s e) s' e' = [])
  /\ (forall o, In o db -> orderDate o = s -> (s <= e)%Z ->
        In o (getOrdersByDateRange db s e))
  /\ (forall o, In o db -> orderDate o = e -> (s <= e)%Z ->
        In o (getOrdersByDateRange db s e)).
Proof.
  split; [apply date_range_inter|]. split; [|split].
  - intros Hempty. rewrite date_range_inter. now apply date_range_empty.
  - intros o Hin Hd Hse. apply filter_In. split; [exact Hin|].
    unfold inDateRange. rewrite Hd.
    apply andb_true_iff. split; apply Z.leb_le; lia.
  - intros o Hin Hd Hse. apply filter_In. split; [exact Hin|].
    unfold inDateRange. rewrite Hd.
    apply andb_true_iff. split; apply Z.leb_le; lia.
Qed.

Lemma getOrdersByDateRange_nested_witness :
  getOrdersByDateRange
    (getOrdersByDateRange Samples.twoCustomers 20 30) 0 10 = []
  /\ In (Samples.orderOf 8 "MT2611020002" "pending" 20)
       (getOrdersByDateRange Samples.twoCustomers 20 30).
Proof.
  destruct (getOrdersByDateRange_nested Samples.twoCustomers 20 30 0 10)
    as (_ & Hempty & Hstart & _).
  split.
  - apply Hempty. vm_compute. reflexivity.
  - apply Hstart; [right; left; reflexivity | reflexivity
                  | vm_compute; discriminate].
Defined.




(** ** The chatbot's order inquiry *)

Lemma newer_irrefl {num : Type} (x : Order num) : Chatbot.newer x x = false.
Proof.
  unfold Chatbot.newer. destruct (createdAt x); [apply Z.ltb_irrefl|reflexivity].
Qed.

Lemma newer_asym {num : Type} (x y : Order num) :
  Chatbot.newer y x = true -> Chatbot.newer x y = false.
Proof.
  unfold Chatbot.newer. destruct (createdAt x), (createdAt y);
    try discriminate; try reflexivity.
  intros H. apply Z.ltb_lt in H. apply Z.ltb_ge. lia.
Qed.

Lemma not_newer_trans {num : Type} (x y z : Order num) :
  Chatbot.newer z y = false -> Chatbot.newer y x = false ->
  Chatbot.newer z x = false.
Proof.
  unfold Chatbot.newer. destruct (createdAt x), (createdAt y), (createdAt z);
    try discriminate; try reflexivity; intros H1 H2.
  apply Z.ltb_ge in H1. apply Z.ltb_ge in H2. apply Z.ltb_ge. lia.
Qed.

Lemma latest_from {num : Type} (l : list (Order num)) (b : Order num) :
  exists x,
    fold_left
      (fun best o =>
         match best with
         | None => Some o
         | Some b' => if Chatbot.newer o b' then Some o else Some b'
         end) l (Some b) = Some x
    /\ (x = b \/ In x l)
    /\ Chatbot.newer b x = false
    /\ forall y, In y l -> Chatbot.newer y x = false.
Proof.
  revert b. induction l as [|o l IH]; intros b; cbn [fold_left].
  - exists b. split; [reflexivity|]. split; [now left|].
    split; [apply newer_irrefl | intros y []].
  - destruct (Chatbot.newer o b) eqn:E.
    + destruct (IH o) as (x & Hx & Hin & Hb & Hl). exists x.
      split; [exact Hx|]. split; [right; destruct Hin; [left; auto | now right]|].
      split.
      * apply (not_newer_trans x o b); [now apply newer_asym | exact Hb].
      * intros y [<- | Hy]; [exact Hb | now apply Hl].
    + destruct (IH b) as (x & Hx & Hin & Hb & Hl). exists x.
      split; [exact Hx|]. split; [destruct Hin; [now left | right; now right]|].
      split; [exact Hb|].
      intros y [<- | Hy]; [|now apply Hl].
      apply (not_newer_trans x b o); assumption.
Qed.

Lemma latest_spec {num : Type} (l : list (Order num)) :
  match Chatbot.latest l with
  | None => l = []
  | Some x => In x l /\ forall y, In y l -> Chatbot.newer y x = false
  end.
Proof.
  unfold Chatbot.latest. destruct l as [|o l]; [reflexivity|].
  cbn [fold_left]. destruct (latest_from l o) as (x & -> & Hin & Hb & Hl).
  split.
  - destruct Hin as [-> | Hin]; [now left | now right].
  - intros y [<- | Hy]; [exact Hb | now apply Hl].
Qed.

Lemma sameNumber_true {num : Type} (n : option string) (o : Order num) :
  Chatbot.truthy n = true ->
  (Chatbot.sameNumber n o = true <-> orderNumber o = n).
Proof.
  intros Ht. unfold Chatbot.sameNumber. destruct n as [a|]; [|discriminate].
  destruct (orderNumber o) as [b|].
  - rewrite String.eqb_eq. split; [intros ->; reflexivity | congruence].
  - split; discriminate.
Qed.

(** What the query finds is a stored order of the asking user, and the
    one with the number asked for when there is one. *)
Lemma findOrder_own {num : Type} (db : list (Order num))
  (number : option string) (uid : N) (o : Order num) :
  Chatbot.findOrder db number uid = Some o ->
  In o db /\ customer o = uid
  /\ (Chatbot.truthy number = true -> orderNumber o = number).
Proof.
  intros E. unfold Chatbot.findOrder in E.
  destruct (Chatbot.truthy number) eqn:Ht.
  - apply find_some in E. destruct E as [Hin Hp].
    unfold Chatbot.byNumberAndCustomer in Hp. apply andb_true_iff in Hp.
    destruct Hp as [Hn Hc]. apply N.eqb_eq in Hc.
    repeat split; try assumption. intros _. now apply sameNumber_true.
  - pose proof (latest_spec (filter (fun o => N.eqb (customer o) uid) db)) as L.
    rewrite E in L. destruct L as [Hin _]. apply filter_In in Hin.
    destruct Hin as [Hin Hc]. apply N.eqb_eq in Hc.
    repeat split; try assumption. discriminate.
Qed.

(** The query finds nothing exactly when no stored order of the user
    answers it. *)
Lemma findOrder_none {num : Type} (db : list (Order num))
  (number : option string) (uid : N) :
  Chatbot.findOrder db number uid = None
  <-> forall o, In o db -> customer o = uid ->
        Chatbot.truthy number = true /\ orderNumber o <> number.
Proof.
  split.
  - intros E o Hin Hc. unfold Chatbot.findOrder in E.
    destruct (Chatbot.truthy number) eqn:Ht.
    + split; [reflexivity|].
      intros Hn. pose proof (find_none _ _ E o Hin) as Hp.
      unfold Chatbot.byNumberAndCustomer in Hp.
      apply (sameNumber_true number o Ht) in Hn.
      apply N.eqb_eq in Hc. rewrite Hn, Hc in Hp. discriminate.
    + exfalso.
      pose proof (latest_spec (filter (fun o => N.eqb (customer o) uid) db))
        as L.
      rewrite E in L.
      assert (Hf : In o (filter (fun o => N.eqb (customer o) uid) db))
        by (apply filter_In; split; [exact Hin | now apply N.eqb_eq]).
      rewrite L in Hf. destruct Hf.
  - intros H.
    destruct (Chatbot.findOrder db number uid) as [o|] eqn:E; [|reflexivity].
    exfalso. destruct (findOrder_own db number uid o E) as (Hin & Hc & Hn).
    destruct (H o Hin Hc) as [Ht Hne]. apply Hne. now apply Hn.
Qed.

(** X14. An order is disclosed only to its customer: whenever the
    handler returns a reply that carries an order summary, a user is
    logged in, the summary is that of a stored order of this very user
    with every product name filled in, and when a number was asked for
    it is the order with that number. *)
Theorem inquiry_discloses_own_orders_only {num : Type}
  (db : list (Order num)) (products : list Chatbot.Product)
  (number : option string) (user : option Chatbot.User)
  (r : Chatbot.Reply num) (sm : Chatbot.OrderSummary num) :
  Chatbot.handleOrderInquiry db products number user = Chatbot.Returned r ->
  Chatbot.reply_order r = Some sm ->
  exists u o,
    user = Some u /\ In o db /\ customer o = Chatbot.user_id u
    /\ Chatbot.summarize products o = Some sm
    /\ (Chatbot.truthy number = true -> orderNumber o = number).
Proof.
  unfold Chatbot.handleOrderInquiry. destruct user as [u|].
  - destruct (Chatbot.findOrder db number (Chatbot.user_id u)) as [o|] eqn:E.
    + destruct (Chatbot.summarize products o) as [sm'|] eqn:S; [|discriminate].
      intros H. injection H as <-. cbn [Chatbot.reply_order].
      intros H. injection H as <-.
      destruct (findOrder_own db number _ o E) as (Hin & Hc & Hn).
      exists u, o. repeat split; assumption.
    + intros H. injection H as <-. discriminate.
  - intros H. injection H as <-. discriminate.
Qed.

Lemma inquiry_discloses_own_orders_only_witness :
  exists u o,
    Some (Chatbot.mkUser 7) = Some u /\ In o Samples.twoCustomers
    /\ customer o = Chatbot.user_id u
    /\ Chatbot.summarize Samples.catalog o
       = Some (Chatbot.mkSummary (Some "MT2611020003") "delivered" 200%float 30
                 [Chatbot.mkItemSummary "Teapot" 2%float 100%float "pending"])
    /\ (Chatbot.truthy None = true -> orderNumber o = None).
Proof.
  apply (inquiry_discloses_own_orders_only Samples.twoCustomers
           Samples.catalog None (Some (Chatbot.mkUser 7))
           (Chatbot.orderStatus
              (Samples.orderOf 7 "MT2611020003" "delivered" 30)
              (Chatbot.mkSummary (Some "MT2611020003") "delivered" 200%float 30
                 [Chatbot.mkItemSummary "Teapot" 2%float 100%float
                    "pending"])));
    reflexivity.
Defined.

(** X15. For a logged-in user the handler answers [order_not_found]
    exactly when the collection holds no order of this user that answers
    the inquiry: none with the number asked for, or none at all when no
    number was given. An order with that number of another customer is
    reported as not found. *)
Theorem inquiry_not_found_iff {num : Type}
  (db : list (Order num)) (products : list Chatbot.Product)
  (number : option string) (u : Chatbot.User) :
  (exists r,
     Chatbot.handleOrderInquiry db products number (Some u)
     = Chatbot.Returned r
     /\ Chatbot.reply_type r = "order_not_found")
  <-> forall o, In o db -> customer o = Chatbot.user_id u ->
        Chatbot.truthy number = true /\ orderNumber o <> number.
Proof.
  rewrite <- findOrder_none. unfold Chatbot.handleOrderInquiry.
  destruct (Chatbot.findOrder db number (Chatbot.user_id u)) as [o|] eqn:E.
  - split; [|discriminate]. intros (r & H & Ht). exfalso.
    destruct (Chatbot.summarize products o); [|discriminate].
    injection H as <-. discriminate.
  - split; [reflexivity|]. intros _. eexists. split; reflexivity.
Qed.

Lemma inquiry_not_found_iff_witness :
  exists r,
    Chatbot.handleOrderInquiry Samples.twoCustomers Samples.catalog
      (Some "MT2611020002") (Some (Chatbot.mkUser 7))
    = Chatbot.Returned r
    /\ Chatbot.reply_type r = "order_not_found".
Proof.
  apply (inquiry_not_found_iff Samples.twoCustomers Samples.catalog
           (Some "MT2611020002") (Chatbot.mkUser 7)).
  intros o [<- | [<- | [<- | []]]] Hc; try discriminate;
    (split; [reflexivity | discriminate]).
Defined.

(** X16. Without a number the inquiry finds the customer's most recent
    order: the order found is a stored order of the customer, and no
    order of the customer was created later. *)
Theorem inquiry_finds_latest_order {num : Type}
  (db : list (Order num)) (number : option string) (uid : N) (o : Order num) :
  Chatbot.truthy number = false ->
  Chatbot.findOrder db number uid = Some o ->
  In o db /\ customer o = uid
  /\ forall o' t', In o' db -> customer o' = uid -> createdAt o' = Some t' ->
       exists t, createdAt o = Some t /\ (t' <= t)%Z.
Proof.
  intros Ht E. unfold Chatbot.findOrder in E. rewrite Ht in E.
  pose proof (latest_spec (filter (fun o => N.eqb (customer o) uid) db)) as L.
  rewrite E in L. destruct L as [Hin Hmax]. apply filter_In in Hin.
  destruct Hin as [Hin Hc]. apply N.eqb_eq in Hc.
  split; [exact Hin|]. split; [exact Hc|].
  intros o' t' Hin' Hc' Ht'.
  assert (Hn : Chatbot.newer o' o = false).
  { apply Hmax. apply filter_In. split; [exact Hin' | now apply N.eqb_eq]. }
  unfold Chatbot.newer in Hn. rewrite Ht' in Hn.
  destruct (createdAt o) as [t|]; [|discriminate].
  exists t. split; [reflexivity|]. apply Z.ltb_ge in Hn. exact Hn.
Qed.

Lemma inquiry_finds_latest_order_witness :
  In (Samples.orderOf 7 "MT2611020003" "delivered" 30) Samples.twoCustomers
  /\ customer (Samples.orderOf 7 "MT2611020003" "delivered" 30) = 7%N
  /\ forall o' t', In o' Samples.twoCustomers -> customer o' = 7%N ->
       createdAt o' = Some t' ->
       exists t,
         createdAt (Samples.orderOf 7 "MT2611020003" "delivered" 30) = Some t
         /\ (t' <= t)%Z.
Proof.
  apply (inquiry_finds_latest_order Samples.twoCustomers (Some "") 7);
    reflexivity.
Defined.





(** The same inquiry when the product collection has lost the product:
    the handler throws. *)
Example inquiry_with_missing_product :
  Chatbot.handleOrderInquiry
    (Samples.busyDay 4
     ++ [preSave (Samples.nov2 0) (Samples.busyDay 4) Samples.scenarioA])
    [] (Some "MT2611010007") (Some (Chatbot.mkUser 7))
  = Chatbot.TypeError.
Proof. reflexivity. Qed.

(** ** The client order store *)

Lemma updateFirst_find
  (k k' : string) (f : OrderSlice.ClientOrder -> OrderSlice.ClientOrder)
  (l : list OrderSlice.ClientOrder) :
  (forall o, OrderSlice.id o = k -> OrderSlice.id (f o) = k) ->
  find (fun o => String.eqb (OrderSlice.id o) k') (OrderSlice.updateFirst k f l)
  = if String.eqb k' k
    then option_map f (find (fun o => String.eqb (OrderSlice.id o) k) l)
    else find (fun o => String.eqb (OrderSlice.id o) k') l.
Proof.
  intros Hid. induction l as [|o l IH]; cbn [OrderSlice.updateFirst find].
  - now destruct (String.eqb k' k).
  - destruct (String.eqb (OrderSlice.id o) k) eqn:E.
    + apply String.eqb_eq in E. cbn [find]. rewrite (Hid o E), E.
      destruct (String.eqb k' k) eqn:E'.
      * apply String.eqb_eq in E'. subst k'. now rewrite String.eqb_refl.
      * rewrite String.eqb_sym, E'. reflexivity.
    + cbn [find]. destruct (String.eqb k' k) eqn:E'.
      * apply String.eqb_eq in E'. subst k'. rewrite E. exact IH.
      * destruct (String.eqb (OrderSlice.id o) k'); [reflexivity | exact IH].
Qed.

Lemma updateFirst_length
  (k : string) (f : OrderSlice.ClientOrder -> OrderSlice.ClientOrder)
  (l : list OrderSlice.ClientOrder) :
  List.length (OrderSlice.updateFirst k f l) = List.length l.
Proof.
  induction l as [|o l IH]; cbn [OrderSlice.updateFirst]; [reflexivity|].
  destruct (String.eqb (OrderSlice.id o) k); simpl; [reflexivity | now rewrite IH].
Qed.

Lemma updateFirst_absent
  (k : string) (f : OrderSlice.ClientOrder -> OrderSlice.ClientOrder)
  (l : list OrderSlice.ClientOrder) :
  find (fun o => String.eqb (OrderSlice.id o) k) l = None ->
  OrderSlice.updateFirst k f l = l.
Proof.
  induction l as [|o l IH]; cbn [OrderSlice.updateFirst find]; [reflexivity|].
  destruct (String.eqb (OrderSlice.id o) k); [discriminate|].
  intros H. now rewrite IH.
Qed.



(** X19. A cancellation or a return request addressed to an id that no
    order of the list has changes no order and adds none. *)
Theorem unknown_id_changes_nothing
  (listTime currentTime : Z) (clock : OrderSlice.ReturnClock)
  (s : OrderSlice.State) (orderId reason : string) (its : list N) :
  OrderSlice.selectOrderById s orderId = None ->
  OrderSlice.orders
    (OrderSlice.cancelOrder listTime currentTime s orderId reason)
  = OrderSlice.orders s
  /\ OrderSlice.orders (OrderSlice.requestReturn clock s orderId its reason)
     = OrderSlice.orders s.
Proof.
  unfold OrderSlice.selectOrderById. intros H.
  split; cbn [OrderSlice.cancelOrder OrderSlice.requestReturn OrderSlice.orders];
    now apply updateFirst_absent.
Qed.

Lemma unknown_id_changes_nothing_witness :
  OrderSlice.orders
    (OrderSlice.cancelOrder 5000 5001 Samples.store3 "zz" "late")
  = OrderSlice.orders Samples.store3
  /\ OrderSlice.orders
       (OrderSlice.requestReturn Samples.ticking Samples.store3 "zz" [1%N]
          "late")
     = OrderSlice.orders Samples.store3.
Proof.
  apply (unknown_id_changes_nothing 5000 5001 Samples.ticking Samples.store3
           "zz" "late" [1%N]).
  reflexivity.
Defined.

(** X20. A return request is appended and changes nothing else. For an
    order of the list, the order found afterwards has the same status
    and cancellation and its earlier return requests in their order,
    followed by one new request: in status 'requested', with the items
    and reason given, the id [return_] followed by the first reading of
    the clock, and the date read next. The order is then among the
    orders with returns, every other id finds what it found before, and
    the list keeps its length. *)
Theorem requestReturn_appends
  (clock : OrderSlice.ReturnClock) (s : OrderSlice.State)
  (orderId reason other : string) (its : list N)
  (o : OrderSlice.ClientOrder) :
  OrderSlice.selectOrderById s orderId = Some o ->
  let s' := OrderSlice.requestReturn clock s orderId its reason in
  (exists o',
     OrderSlice.selectOrderById s' orderId = Some o'
     /\ OrderSlice.status o' = OrderSlice.status o
     /\ OrderSlice.cancellation o' = OrderSlice.cancellation o
     /\ OrderSlice.returns o'
        = Some (match OrderSlice.returns o with
                | Some rs => rs
                | None => []
                end
                ++ [OrderSlice.mkReturn
                      ("return_" ++ JS.toString (OrderSlice.listNow clock))
                      its reason "requested" (OrderSlice.listDate clock)])%list
     /\ In o' (OrderSlice.selectOrdersWithReturns s'))
  /\ (other <> orderId ->
      OrderSlice.selectOrderById s' other
      = OrderSlice.selectOrderById s other)
  /\ List.length (OrderSlice.orders s') = List.length (OrderSlice.orders s).
Proof.
  intros Ho. cbv zeta.
  set (r := OrderSlice.newReturn (OrderSlice.listNow clock)
              (OrderSlice.listDate clock) its reason).
  assert (Hfind :
    OrderSlice.selectOrderById
      (OrderSlice.requestReturn clock s orderId its reason) orderId
    = Some (OrderSlice.pushReturn r o)).
  { unfold OrderSlice.selectOrderById, OrderSlice.requestReturn in *.
    cbn [OrderSlice.orders]. fold r.
    rewrite updateFirst_find by (intros x Hx; exact Hx).
    now rewrite String.eqb_refl, Ho. }
  split; [|split].
  - exists (OrderSlice.pushReturn r o).
    split; [exact Hfind|]. split; [reflexivity|]. split; [reflexivity|].
    split; [cbn; now destruct (OrderSlice.returns o)|].
    unfold OrderSlice.selectOrdersWithReturns. apply filter_In. split.
    + unfold OrderSlice.selectOrderById in Hfind.
      apply find_some in Hfind. apply Hfind.
    + unfold OrderSlice.hasReturns.
      cbn [OrderSlice.pushReturn OrderSlice.returns].
      destruct (OrderSlice.returns o) as [[|x rs]|]; reflexivity.
  - intros Hne. unfold OrderSlice.selectOrderById, OrderSlice.requestReturn.
    cbn [OrderSlice.orders].
    rewrite updateFirst_find by (intros x Hx; exact Hx).
    apply String.eqb_neq in Hne. now rewrite Hne.
  - apply updateFirst_length.
Qed.

Lemma requestReturn_appends_witness :
  (exists o',
     OrderSlice.selectOrderById
       (OrderSlice.requestReturn Samples.ticking Samples.store3 "c" [1%N]
          "broken") "c"
     = Some o'
     /\ OrderSlice.status o' = "delivered"
     /\ OrderSlice.cancellation o' = None
     /\ OrderSlice.returns o'
        = Some [OrderSlice.mkReturn "return_100" [2%N] "wrong size"
                  "approved" 100;
                OrderSlice.mkReturn "return_5000" [1%N] "broken"
                  "requested" 5001]
     /\ In o' (OrderSlice.selectOrdersWithReturns
                 (OrderSlice.requestReturn Samples.ticking Samples.store3 "c"
                    [1%N] "broken")))
  /\ (("a" : string) <> "c" ->
      OrderSlice.selectOrderById
        (OrderSlice.requestReturn Samples.ticking Samples.store3 "c" [1%N]
           "broken") "a"
      = OrderSlice.selectOrderById Samples.store3 "a")
  /\ List.length
       (OrderSlice.orders
          (OrderSlice.requestReturn Samples.ticking Samples.store3 "c" [1%N]
             "broken"))
     = 3%nat.
Proof.
  apply (requestReturn_appends Samples.ticking Samples.store3 "c" "broken" "a"
           [1%N]
           (OrderSlice.mkClientOrder "c" "delivered" None
              (Some [OrderSlice.mkReturn "return_100" [2%N] "wrong size"
                       "approved" 100]))).
  reflexivity.
Defined.

(** X21. The pending, completed and cancelled selectors never share an
    order, and together they leave out exactly the orders whose status
    is none of pending, confirmed, processing, delivered and cancelled,
    shipped and returned orders among them. *)
Theorem status_selectors_partition (s : OrderSlice.State) :
  (List.length (OrderSlice.selectPendingOrders s)
   + List.length (OrderSlice.selectCompletedOrders s)
   + List.length (OrderSlice.selectCancelledOrders s)
   + List.length
       (filter
          (fun o =>
             negb (JS.includes
                     ["pending"; "confirmed"; "processing"; "delivered";
                      "cancelled"] (OrderSlice.status o)))
          (OrderSlice.orders s))
   = List.length (OrderSlice.orders s))%nat
  /\ (forall o,
        In o (OrderSlice.selectOrdersByStatus s "shipped")
        \/ In o (OrderSlice.selectOrdersByStatus s "returned") ->
        ~ In o (OrderSlice.selectPendingOrders s)
        /\ ~ In o (OrderSlice.selectCompletedOrders s)
        /\ ~ In o (OrderSlice.selectCancelledOrders s)).
Proof.
  unfold OrderSlice.selectPendingOrders, OrderSlice.selectCompletedOrders,
    OrderSlice.selectCancelledOrders, OrderSlice.selectOrdersByStatus.
  split.
  - induction (OrderSlice.orders s) as [|o l IH]; [reflexivity|].
    unfold JS.includes in *. cbn [filter existsb] in *. cbv beta in *.
    destruct (String.eqb (OrderSlice.status o) "pending") eqn:E1,
      (String.eqb (OrderSlice.status o) "confirmed") eqn:E2,
      (String.eqb (OrderSlice.status o) "processing") eqn:E3,
      (String.eqb (OrderSlice.status o) "delivered") eqn:E4,
      (String.eqb (OrderSlice.status o) "cancelled") eqn:E5;
      cbn [orb negb List.length];
      first [ lia
            | exfalso;
              repeat match goal with
                     | H : String.eqb _ _ = true |- _ =>
                       apply String.eqb_eq in H
                     end;
              congruence ].
  - intros o Ho.
    assert (Hst : OrderSlice.status o = "shipped"
                  \/ OrderSlice.status o = "returned").
    { destruct Ho as [Ho | Ho]; apply filter_In in Ho; destruct Ho as [_ Ho];
        apply String.eqb_eq in Ho; auto. }
    repeat split; intros Hin; apply filter_In in Hin; destruct Hin as [_ Hin];
      destruct Hst as [Hst | Hst]; rewrite Hst in Hin; discriminate.
Qed.

Lemma status_selectors_partition_witness :
  ~ In (OrderSlice.mkClientOrder "b" "shipped" None (Some []))
      (OrderSlice.selectPendingOrders Samples.store3)
  /\ ~ In (OrderSlice.mkClientOrder "b" "shipped" None (Some []))
         (OrderSlice.selectCompletedOrders Samples.store3)
  /\ ~ In (OrderSlice.mkClientOrder "b" "shipped" None (Some []))
         (OrderSlice.selectCancelledOrders Samples.store3).
Proof.
  destruct (status_selectors_partition Samples.store3) as [_ H].
  apply H. left. simpl. left. reflexivity.
Defined.

(** X22. [updateOrder] replaces and never inserts: when the list has an
    order with the payload's id, a lookup of that id afterwards finds
    the payload; when it has none, the list is unchanged; lookups of
    other ids and the length of the list are unaffected either way. *)
Theorem updateOrder_replaces_only
  (s : OrderSlice.State) (u : OrderSlice.ClientOrder) (other : string) :
  (OrderSlice.selectOrderById s (OrderSlice.id u) <> None ->
   OrderSlice.selectOrderById (OrderSlice.updateOrder s u)
     (OrderSlice.id u) = Some u)
  /\ (OrderSlice.selectOrderById s (OrderSlice.id u) = None ->
      OrderSlice.orders (OrderSlice.updateOrder s u) = OrderSlice.orders s)
  /\ (other <> OrderSlice.id u ->
      OrderSlice.selectOrderById (OrderSlice.updateOrder s u) other
      = OrderSlice.selectOrderById s other)
  /\ List.length (OrderSlice.orders (OrderSlice.updateOrder s u))
     = List.length (OrderSlice.orders s).
Proof.
  unfold OrderSlice.selectOrderById, OrderSlice.updateOrder.
  cbn [OrderSlice.orders]. split; [|split; [|split]].
  - intros Hfound. rewrite updateFirst_find by reflexivity.
    rewrite String.eqb_refl.
    destruct (find _ (OrderSlice.orders s)); [reflexivity | contradiction].
  - apply updateFirst_absent.
  - intros Hne. rewrite updateFirst_find by reflexivity.
    apply String.eqb_neq in Hne. now rewrite Hne.
  - apply updateFirst_length.
Qed.

Lemma updateOrder_replaces_only_witness :
  OrderSlice.selectOrderById
    (OrderSlice.updateOrder Samples.store3
       (OrderSlice.mkClientOrder "a" "confirmed" None None)) "a"
  = Some (OrderSlice.mkClientOrder "a" "confirmed" None None)
  /\ OrderSlice.orders
       (OrderSlice.updateOrder Samples.store3
          (OrderSlice.mkClientOrder "zz" "confirmed" None None))
     = OrderSlice.orders Samples.store3.
Proof.
  split.
  - apply (updateOrder_replaces_only Samples.store3
             (OrderSlice.mkClientOrder "a" "confirmed" None None) "b").
    discriminate.
  - apply (updateOrder_replaces_only Samples.store3
             (OrderSlice.mkClientOrder "zz" "confirmed" None None) "b").
    reflexivity.
Defined.

(** The list entry gets [f] and the current order [g]: the two stay in
    step exactly when the current order is not the one addressed or [f]
    and [g] agree on it. *)
Lemma synced_after_updates
  (k : string) (f g : OrderSlice.ClientOrder -> OrderSlice.ClientOrder)
  (s : OrderSlice.State) :
  (forall o, OrderSlice.id o = k -> OrderSlice.id (f o) = k) ->
  (forall o, OrderSlice.id o = k -> OrderSlice.id (g o) = k) ->
  Spec.synced s ->
  (Spec.synced
     (OrderSlice.mkState (OrderSlice.updateFirst k f (OrderSlice.orders s))
        (OrderSlice.updateCurrent k g (OrderSlice.currentOrder s)))
   <-> forall c, OrderSlice.currentOrder s = Some c -> OrderSlice.id c = k ->
                 f c = g c).
Proof.
  intros Hf Hg Hs. unfold Spec.synced in *.
  unfold OrderSlice.selectOrderById in *.
  cbn [OrderSlice.currentOrder OrderSlice.orders].
  unfold OrderSlice.updateCurrent.
  destruct (OrderSlice.currentOrder s) as [c0|].
  - specialize (Hs c0 eq_refl).
    destruct (String.eqb (OrderSlice.id c0) k) eqn:E.
    + apply String.eqb_eq in E. split.
      * intros H c Hc _. injection Hc as <-.
        specialize (H (g c0) eq_refl).
        rewrite updateFirst_find in H by exact Hf.
        rewrite (Hg c0 E), String.eqb_refl in H.
        rewrite E in Hs. rewrite Hs in H. cbn in H. now injection H.
      * intros H c Hc. injection Hc as <-.
        rewrite updateFirst_find by exact Hf.
        rewrite (Hg c0 E), String.eqb_refl.
        rewrite E in Hs. rewrite Hs. cbn. now rewrite (H c0 eq_refl E).
    + split.
      * intros _ c Hc Hk. injection Hc as <-.
        rewrite Hk, String.eqb_refl in E. discriminate.
      * intros _ c Hc. injection Hc as <-.
        rewrite updateFirst_find by exact Hf. now rewrite E.
  - split; intros _ c Hc; discriminate.
Qed.

(** X23. The store keeps its current order in step with the list only
    as far as the clock allows. When the current order is the one the
    list holds under its id, this is still so after any replacement;
    after a cancellation it is so exactly when the current order is not
    the cancelled one or the two readings of the clock agree; after a
    return request exactly when the current order is not the addressed
    one or both pairs of readings agree. *)
Theorem reducers_keep_current_in_sync
  (s : OrderSlice.State) (listTime currentTime : Z)
  (clock : OrderSlice.ReturnClock) (orderId reason : string)
  (its : list N) (u : OrderSlice.ClientOrder) :
  Spec.synced s ->
  let addressed :=
    exists c, OrderSlice.currentOrder s = Some c /\ OrderSlice.id c = orderId in
  Spec.synced (OrderSlice.updateOrder s u)
  /\ (Spec.synced
        (OrderSlice.cancelOrder listTime currentTime s orderId reason)
      <-> (addressed -> listTime = currentTime))
  /\ (Spec.synced (OrderSlice.requestReturn clock s orderId its reason)
      <-> (addressed ->
           OrderSlice.listNow clock = OrderSlice.currentNow clock
           /\ OrderSlice.listDate clock = OrderSlice.currentDate clock)).
Proof.
  intros Hs. cbv zeta. split; [|split].
  - apply (synced_after_updates (OrderSlice.id u) (fun _ => u) (fun _ => u));
      [reflexivity | reflexivity | exact Hs | reflexivity].
  - unfold OrderSlice.cancelOrder.
    rewrite synced_after_updates;
      [| intros o Ho; exact Ho | intros o Ho; exact Ho | exact Hs].
    split.
    + intros H (c & Hc & Hk). specialize (H c Hc Hk).
      unfold OrderSlice.markCancelled in H. now injection H.
    + intros H c Hc Hk. now rewrite H by eauto.
  - unfold OrderSlice.requestReturn.
    rewrite synced_after_updates;
      [| intros o Ho; exact Ho | intros o Ho; exact Ho | exact Hs].
    split.
    + intros H (c & Hc & Hk). specialize (H c Hc Hk).
      unfold OrderSlice.pushReturn, OrderSlice.newReturn in H.
      assert (Hr : OrderSlice.mkReturn
                     ("return_" ++ JS.toString (OrderSlice.listNow clock))
                     its reason "requested" (OrderSlice.listDate clock)
                   = OrderSlice.mkReturn
                       ("return_" ++ JS.toString (OrderSlice.currentNow clock))
                       its reason "requested" (OrderSlice.currentDate clock)).
      { destruct (OrderSlice.returns c) as [rs|].
        - assert (Hl : (rs ++ [OrderSlice.mkReturn
                                 ("return_"
                                  ++ JS.toString (OrderSlice.listNow clock))
                                 its reason "requested"
                                 (OrderSlice.listDate clock)])%list
                       = (rs ++ [OrderSlice.mkReturn
                                   ("return_"
                                    ++ JS.toString
                                         (OrderSlice.currentNow clock))
                                   its reason "requested"
                                   (OrderSlice.currentDate clock)])%list)
            by congruence.
          apply app_inv_head in Hl. congruence.
        - congruence. }
      assert (Hid : "return_" ++ JS.toString (OrderSlice.listNow clock)
                    = "return_" ++ JS.toString (OrderSlice.currentNow clock))
        by congruence.
      assert (Hd : OrderSlice.listDate clock = OrderSlice.currentDate clock)
        by congruence.
      split; [|exact Hd].
      apply append_cancel_l in Hid.
      apply (f_equal JS.parseInt) in Hid.
      now rewrite !parseInt_toString in Hid.
    + intros H c Hc Hk. destruct H as [Hn Hd]; [eauto|].
      now rewrite Hn, Hd.
Qed.

Lemma reducers_keep_current_in_sync_witness :
  Spec.synced
    (OrderSlice.updateOrder Samples.store3
       (OrderSlice.mkClientOrder "b" "delivered" None None))
  /\ ~ Spec.synced (OrderSlice.cancelOrder 5000 5001 Samples.store3 "b" "late")
  /\ Spec.synced (OrderSlice.cancelOrder 5000 5000 Samples.store3 "b" "late")
  /\ ~ Spec.synced
         (OrderSlice.requestReturn Samples.ticking Samples.store3 "b" [1%N]
            "late")
  /\ Spec.synced
       (OrderSlice.requestReturn Samples.ticking Samples.store3 "c" [1%N]
          "late").
Proof.
  assert (Hs : Spec.synced Samples.store3)
    by (intros c Hc; injection Hc as <-; reflexivity).
  assert (Hb : exists c, OrderSlice.currentOrder Samples.store3 = Some c
                         /\ OrderSlice.id c = "b")
    by (eexists; split; reflexivity).
  split; [|split; [|split; [|split]]].
  - apply (reducers_keep_current_in_sync Samples.store3 0 0 Samples.ticking
             "b" "late" [] _ Hs).
  - intros H.
    apply (reducers_keep_current_in_sync Samples.store3 5000 5001
             Samples.ticking "b" "late" []
             (OrderSlice.mkClientOrder "b" "delivered" None None) Hs) in H;
      [discriminate | exact Hb].
  - apply (reducers_keep_current_in_sync Samples.store3 5000 5000
             Samples.ticking "b" "late" []
             (OrderSlice.mkClientOrder "b" "delivered" None None) Hs).
    reflexivity.
  - intros H.
    apply (reducers_keep_current_in_sync Samples.store3 0 0
             Samples.ticking "b" "late" [1%N]
             (OrderSlice.mkClientOrder "b" "delivered" None None) Hs) in H;
      [destruct H; discriminate | exact Hb].
  - apply (reducers_keep_current_in_sync Samples.store3 0 0
             Samples.ticking "c" "late" [1%N]
             (OrderSlice.mkClientOrder "b" "delivered" None None) Hs).
    intros (c & Hc & Hk). injection Hc as <-. discriminate.
Defined.
